(** * UlyssesPact: a watchdog that limits the run time and the daily
      number of launches of a named process.

    Shallow embedding of [main.py].  The program is a straight-line
    procedure with two polling loops; it talks to the operating system
    (clock, process table, kill primitive, standard output) and to one CSV
    file.  The embedding threads an explicit machine state through a small
    state-and-exception monad:

    - time instants and time spans are rationals, in seconds (Python's
      [datetime] and [Timedelta] values; floating-point rounding of
      [total_seconds() / 100] is idealised as exact arithmetic);
    - the operating system is an environment [Env]: the process table as a
      function of time, the outcome of the kill primitive, and the time
      each primitive step takes (its latency) beyond a requested sleep;
    - Python objects live in a heap addressed by locations, so that the
      [Report] sees the attributes that [prepare_to_monitor] later stores
      in the [Process] it shares with [main];
    - the CSV store is a finite map from file names to tables; a table is
      the list of its rows, the textual encoding of the cells is left out;
    - loops take fuel; running out of fuel is a result of its own. *)

From Stdlib Require Import ZArith QArith Qround Lqa Lia String List.
From stdpp Require Import base gmap strings list.
Import ListNotations.

Local Open Scope Q_scope.

(** ** Calendar *)

Definition seconds_per_day : Z := 86400.

(** [datetime.date()]: the calendar day of an instant, as a day number. *)
Definition date_of (t : Q) : Z := Qfloor (t / inject_Z seconds_per_day).

(** [datetime.time()]: the time of day of an instant, in seconds. *)
Definition time_of (t : Q) : Q := t - inject_Z (seconds_per_day * date_of t).

Arguments date_of : simpl never.
Arguments time_of : simpl never.

(** Python's [round(x, 2)]: round half to even on the second decimal. *)
Definition round_half_even (q : Q) : Z :=
  let f := Qfloor q in
  let r := q - inject_Z f in
  if Qle_bool r (1 # 2)
  then (if Qle_bool (1 # 2) r then (if Z.even f then f else (f + 1)%Z) else f)
  else (f + 1)%Z.

Definition round2 (q : Q) : Q := inject_Z (round_half_even (q * 100)) / 100.

Definition Qlt_bool (a b : Q) : bool := negb (Qle_bool b a).

(** ** Data *)

Definition loc := nat.

(** One line of the report: the six CSV columns. *)
Module Line.
Inductive end_time_cell := unknown | iso (t : Q).
Record t := mk {
  date : Z;
  start_time : Q;
  expected_end_time : Q;
  actual_end_time : end_time_cell;
  duration : option Q;
  times_opened_today : Z
}.
Definition set_actual_end_time (v : end_time_cell) (r : t) : t :=
  mk (date r) (start_time r) (expected_end_time r) v (duration r)
     (times_opened_today r).
End Line.

Module Process.
Inductive State := On | Off.
Definition State_eqb (a b : State) : bool :=
  match a, b with On, On | Off, Off => true | _, _ => false end.
Record t := mk {
  name : string;
  start_time : option Q;
  end_time : option Q;
  duration : option Q
}.
End Process.

Module Report.
Record t := mk {
  date : Z;
  report_dir : string;
  process : loc;
  report_file_name : string;
  report_df : list Line.t;
  times_opened : Z
}.
Definition set_report_df (df : list Line.t) (r : t) : t :=
  mk (date r) (report_dir r) (process r) (report_file_name r) df
     (times_opened r).
End Report.

(** The [argparse.Namespace] after [get_args]: the duration is parsed,
    the maximum is the integer that [int(...)] yields.  Arguments on which
    [int] raises, which [main] would meet after [report_start], are not
    modelled. *)
Record Namespace := mkArgs {
  process : string;
  report_dir : string;
  duration : Q;
  max_times_opened : Z
}.

(** An entry of [psutil.process_iter()]. *)
Record proc := mkProc { proc_name : string; pid : Z }.

Inductive Platform := win32 | posix.

Inductive Exn :=
| ZeroDivisionError
| ValueError
| AttributeError
| TypeError
| IndexError
| FileNotFoundError
| OSError (errno : Z).

(** The operating system and the module-level globals. *)
Record Env := mkEnv {
  args : Namespace;                       (* the global [args] *)
  platform : Platform;                    (* [sys.platform] *)
  latency : nat -> Q;                     (* time taken by the k-th step *)
  process_iter : Q -> list proc;          (* the process table at a time *)
  os_kill : Z -> Q -> option Exn;         (* [os.kill(pid, SIGKILL)] *)
  OpenProcess : Z -> Q -> Z               (* handle for a pid, 0 if none *)
}.

Inductive Msg :=
| StartingToMonitor (p : loc)
| CurrentState (st : Process.State)
| AlreadyOn
| WaitingForStart
| TooManyTimes (times_opened max_allowed : Z)
| StartingAt (start_time : option Q)
| WillBeTerminated (minutes : Q) (end_time : option Q)
| Monitoring (percentage : Q)
| DurationPassed.

(** What the run does to the outside world, in order. *)
Inductive Event :=
| Print (m : Msg)
| Sleep (seconds : Q)
| ToCsv (file : string) (rows : list Line.t)
| Kill (pid : Z)
| WinOpenProcess (pid : Z)
| WinTerminateProcess (handle : Z)
| WinCloseHandle (handle : Z).

Inductive Obj :=
| OProcess (p : Process.t)
| OReport (r : Report.t).

Record St := mkSt {
  now : Q;                                (* the wall clock *)
  ticks : nat;                            (* primitive steps so far *)
  fs : gmap string (list Line.t);         (* the CSV files *)
  trace : list Event;                     (* effects so far, oldest first *)
  heap : gmap loc Obj;
  next_loc : loc
}.

(** ** The monad *)

Inductive Res (A : Type) :=
| Done (a : A)
| Raise (e : Exn)
| OutOfFuel.
Arguments Done {A} a.
Arguments Raise {A} e.
Arguments OutOfFuel {A}.

Definition M (A : Type) : Type := St -> Res A * St.

Definition ret {A} (a : A) : M A := fun s => (Done a, s).

Definition bind {A B} (m : M A) (k : A -> M B) : M B :=
  fun s =>
    match m s with
    | (Done a, s') => k a s'
    | (Raise e, s') => (Raise e, s')
    | (OutOfFuel, s') => (OutOfFuel, s')
    end.

Definition raise {A} (e : Exn) : M A := fun s => (Raise e, s).
Definition out_of_fuel {A} : M A := fun s => (OutOfFuel, s).

Notation "'let*' x ':=' m 'in' k" := (bind m (fun x => k))
  (at level 10, x binder, m at level 200, k at level 200).
Notation "m ';;' k" := (bind m (fun _ => k))
  (at level 100, k at level 200, right associativity).

(** ** Primitive steps *)

(** Every primitive step takes its latency. *)
Definition tick (E : Env) (s : St) : St :=
  mkSt (now s + latency E (ticks s)) (S (ticks s)) (fs s) (trace s) (heap s)
       (next_loc s).

Definition emit (e : Event) (s : St) : St :=
  mkSt (now s) (ticks s) (fs s) (trace s ++ [e]) (heap s) (next_loc s).

Definition advance (d : Q) (s : St) : St :=
  mkSt (now s + d) (ticks s) (fs s) (trace s) (heap s) (next_loc s).

Definition write_file (file : string) (rows : list Line.t) (s : St) : St :=
  mkSt (now s) (ticks s) (<[file := rows]> (fs s)) (trace s) (heap s)
       (next_loc s).

Definition store (l : loc) (o : Obj) (s : St) : St :=
  mkSt (now s) (ticks s) (fs s) (trace s) (<[l := o]> (heap s)) (next_loc s).

Definition bump (s : St) : St :=
  mkSt (now s) (ticks s) (fs s) (trace s) (heap s) (S (next_loc s)).

(** [datetime.datetime.now()] *)
Definition datetime_now (E : Env) : M Q :=
  fun s => (Done (now s), tick E s).

(** [time.sleep(d)]: refuses a negative length. *)
Definition time_sleep (E : Env) (d : Q) : M unit :=
  fun s =>
    if Qlt_bool d 0 then (Raise ValueError, s)
    else (Done tt, tick E (advance d (emit (Sleep d) s))).

(** [psutil.process_iter()] *)
Definition psutil_process_iter (E : Env) : M (list proc) :=
  fun s => (Done (process_iter E (now s)), tick E s).

Definition print (E : Env) (m : Msg) : M unit :=
  fun s => (Done tt, tick E (emit (Print m) s)).

(** [df.to_csv(file, index=False)].  The store is taken as it is when
    it works: the directory of [file] is there and can be written.  The
    [OSError] that pandas raises otherwise is not modelled. *)
Definition to_csv (E : Env) (file : string) (rows : list Line.t) : M unit :=
  fun s => (Done tt, tick E (write_file file rows (emit (ToCsv file rows) s))).

(** [pd.read_csv(file)].  A file of the store holds a table of the six
    columns of the report, as every file written by the program does.  A
    file that is no such table, on which pandas raises, is not modelled. *)
Definition read_csv (E : Env) (file : string) : M (list Line.t) :=
  fun s =>
    match fs s !! file with
    | Some rows => (Done rows, tick E s)
    | None => (Raise FileNotFoundError, s)
    end.

(** [os.path.exists(file)] *)
Definition os_path_exists (E : Env) (file : string) : M bool :=
  fun s =>
    (Done (match fs s !! file with Some _ => true | None => false end),
     tick E s).

Definition alloc (o : Obj) : M loc :=
  fun s => (Done (next_loc s), bump (store (next_loc s) o s)).

Definition get_process (self : loc) : M Process.t :=
  fun s =>
    match heap s !! self with
    | Some (OProcess p) => (Done p, s)
    | _ => (Raise AttributeError, s)
    end.

Definition get_report (self : loc) : M Report.t :=
  fun s =>
    match heap s !! self with
    | Some (OReport r) => (Done r, s)
    | _ => (Raise AttributeError, s)
    end.

Definition put_obj (self : loc) (o : Obj) : M unit :=
  fun s => (Done tt, store self o s).

(** Reading an attribute that is still [None] and using it raises. *)
Definition attr {A} (o : option A) : M A :=
  match o with
  | Some a => ret a
  | None => raise AttributeError
  end.

(** An operand that is still [None] makes the operation raise. *)
Definition operand {A} (o : option A) : M A :=
  match o with
  | Some a => ret a
  | None => raise TypeError
  end.

(** [os.sep]: a backslash (character 92) on win32, a slash elsewhere. *)
Definition os_sep (p : Platform) : string :=
  match p with
  | win32 => String (Ascii.ascii_of_nat 92) EmptyString
  | posix => "/"
  end.

(** ** The program *)

(** *** class Process *)

Definition Process_init (name : string) : M loc :=
  alloc (OProcess (Process.mk name None None None)).

(** The loop of [get_pid]: the first entry whose name is the wanted one. *)
Fixpoint scan_pid (wanted : string) (it : list proc) : Z :=
  match it with
  | [] => (-1)%Z
  | p :: rest =>
      if String.eqb (proc_name p) wanted then pid p else scan_pid wanted rest
  end.

(** The loop of [get_state]. *)
Fixpoint scan_state (wanted : string) (it : list proc) : Process.State :=
  match it with
  | [] => Process.Off
  | p :: rest =>
      if String.eqb (proc_name p) wanted then Process.On
      else scan_state wanted rest
  end.

(** Both compare with the global [args.process]; [self] is not read. *)
Definition get_pid (E : Env) (self : loc) : M Z :=
  let* it := psutil_process_iter E in
  ret (scan_pid (process (args E)) it).

Definition get_state (E : Env) (self : loc) : M Process.State :=
  let* it := psutil_process_iter E in
  ret (scan_state (process (args E)) it).

Fixpoint wait_loop (E : Env) (fuel : nat) (self : loc)
    (state : Process.State) : M unit :=
  if Process.State_eqb state Process.Off then
    match fuel with
    | O => out_of_fuel
    | S fuel' =>
        time_sleep E (1 # 10);;
        let* state := get_state E self in
        wait_loop E fuel' self state
    end
  else ret tt.

Definition wait_until_started (E : Env) (fuel : nat) (self : loc) : M unit :=
  let* state := get_state E self in
  wait_loop E fuel self state.

Definition prepare_to_monitor (E : Env) (self : loc) (duration : Q) : M unit :=
  let* p := get_process self in
  let* start_time := datetime_now E in
  put_obj self
    (OProcess (Process.mk (Process.name p) (Some start_time)
                 (Some (start_time + duration)) (Some duration))).

Definition get_duration_percentage (start_time end_time current_time : Q)
    : M Q :=
  let total_duration := end_time - start_time in
  let current_duration := current_time - start_time in
  if Qeq_bool total_duration 0 then raise ZeroDivisionError
  else ret (round2 (100 * (current_duration / total_duration))).

Fixpoint monitor_loop (E : Env) (fuel : nat) (self : loc) (interval : Q)
    (state : Process.State) (current_time : Q) : M unit :=
  let* p := get_process self in
  let* continue :=
    (if Process.State_eqb state Process.On then
       let* end_time := operand (Process.end_time p) in
       ret (Qlt_bool current_time end_time)
     else ret false) in
  if continue : bool then
    match fuel with
    | O => out_of_fuel
    | S fuel' =>
        let* start_time := operand (Process.start_time p) in
        let* end_time := operand (Process.end_time p) in
        let* percentage :=
          get_duration_percentage start_time end_time current_time in
        print E (Monitoring percentage);;
        time_sleep E interval;;
        let* current_time := datetime_now E in
        let* state := get_state E self in
        monitor_loop E fuel' self interval state current_time
    end
  else ret tt.

(** The sleep of one round of [monitor]: [total_seconds() / 100]. *)
Definition interval (duration : Q) : Q := duration / 100.

Definition monitor (E : Env) (fuel : nat) (self : loc) : M unit :=
  let* p := get_process self in
  let* duration := attr (Process.duration p) in
  let interval := interval duration in
  let* state := get_state E self in
  let* current_time := datetime_now E in
  monitor_loop E fuel self interval state current_time.

Definition terminate (E : Env) (self : loc) : M unit :=
  match platform E with
  | win32 =>
      let* pid := get_pid E self in
      fun s =>
        let handle := OpenProcess E pid (now s) in
        (Done tt,
         tick E (emit (WinCloseHandle handle)
           (tick E (emit (WinTerminateProcess handle)
             (tick E (emit (WinOpenProcess pid) s))))))
  | posix =>
      let* pid := get_pid E self in
      fun s =>
        match os_kill E pid (now s) with
        | None => (Done tt, tick E (emit (Kill pid) s))
        | Some e => (Raise e, tick E (emit (Kill pid) s))
        end
  end.

(** *** class Report *)

Definition _get_last_index (df : list Line.t) : Z :=
  (Z.of_nat (List.length df) - 1)%Z.

(** [df.iloc[i]]: by position, a negative position counts from the end. *)
Definition iloc (df : list Line.t) (i : Z) : option Line.t :=
  if (0 <=? i)%Z then df !! Z.to_nat i
  else if (0 <=? Z.of_nat (List.length df) + i)%Z
       then df !! Z.to_nat (Z.of_nat (List.length df) + i)
       else None.

(** [df.loc[i] = row] on a table labelled 0, 1, ...: an existing label is
    overwritten, a new label adds a line at the end. *)
Definition loc_set (df : list Line.t) (i : Z) (row : Line.t) : list Line.t :=
  if ((0 <=? i) && (i <? Z.of_nat (List.length df)))%Z
  then <[Z.to_nat i := row]> df
  else df ++ [row].

(** [df.update(pd.Series([v], name="actual_end_time", index=[i]))]: the
    cell of that column in the line labelled [i], when there is one. *)
Definition update_actual_end_time (df : list Line.t) (i : Z) (v : Q)
    : list Line.t :=
  if ((0 <=? i) && (i <? Z.of_nat (List.length df)))%Z
  then alter (Line.set_actual_end_time (Line.iso v)) (Z.to_nat i) df
  else df.

Definition _get_report_file_name (E : Env) (report_dir name : string)
    : string :=
  (report_dir +:+ os_sep (platform E) +:+ name +:+ "_report.csv")%string.

Definition _create_new_report_csv (E : Env) (report_file_name : string)
    : M unit :=
  to_csv E report_file_name [].

Definition _get_report_df (E : Env) (report_file_name : string)
    : M (list Line.t) :=
  let* found := os_path_exists E report_file_name in
  (if found : bool then ret tt else _create_new_report_csv E report_file_name);;
  read_csv E report_file_name.

(** The lines of the given day, in order. *)
Definition today_df (report_df : list Line.t) (date : Z) : list Line.t :=
  List.filter (fun r => (Line.date r =? date)%Z) report_df.

Definition _get_times_opened_today (report_df : list Line.t) (date : Z)
    : option Z :=
  let today_df := today_df report_df date in
  match today_df with
  | [] => Some 1%Z
  | _ =>
      let last := _get_last_index today_df in
      match iloc today_df last with
      | Some r => Some (Line.times_opened_today r + 1)%Z
      | None => None
      end
  end.

Definition index {A} (o : option A) : M A :=
  match o with
  | Some a => ret a
  | None => raise IndexError
  end.

Definition Report_init (E : Env) (process : loc) (report_dir : string)
    : M loc :=
  let* t := datetime_now E in
  let date := date_of t in
  let* p := get_process process in
  let report_file_name := _get_report_file_name E report_dir (Process.name p) in
  let* report_df := _get_report_df E report_file_name in
  let* times_opened := index (_get_times_opened_today report_df date) in
  alloc (OReport (Report.mk date report_dir process report_file_name
                    report_df times_opened)).

Definition report_start (E : Env) (self : loc) : M unit :=
  let* r := get_report self in
  let* times_opened :=
    index (_get_times_opened_today (Report.report_df r) (Report.date r)) in
  let new_row_index := (_get_last_index (Report.report_df r) + 1)%Z in
  let* p := get_process (Report.process r) in
  let* start_time := attr (Process.start_time p) in
  let* end_time := attr (Process.end_time p) in
  let new_row :=
    Line.mk (Report.date r) (time_of start_time) (time_of end_time)
      Line.unknown (Process.duration p) times_opened in
  let df := loc_set (Report.report_df r) new_row_index new_row in
  put_obj self (OReport (Report.set_report_df df r));;
  to_csv E (Report.report_file_name r) df.

Definition report_termination (E : Env) (self : loc) : M unit :=
  let* r := get_report self in
  let row_index := _get_last_index (Report.report_df r) in
  let* t := datetime_now E in
  let df := update_actual_end_time (Report.report_df r) row_index (time_of t) in
  put_obj self (OReport (Report.set_report_df df r));;
  to_csv E (Report.report_file_name r) df.

(** *** main *)

Definition main (E : Env) (fuel : nat) (args : Namespace) : M unit :=
  let* process := Process_init (process args) in
  let* report := Report_init E process (report_dir args) in
  print E (StartingToMonitor process);;
  let* state := get_state E process in
  print E (CurrentState state);;
  (if Process.State_eqb state Process.On then print E AlreadyOn
   else (print E WaitingForStart;; wait_until_started E fuel process));;
  prepare_to_monitor E process (duration args);;
  report_start E report;;
  let* r := get_report report in
  if (max_times_opened args <? Report.times_opened r)%Z then
    print E (TooManyTimes (Report.times_opened r) (max_times_opened args));;
    report_termination E report;;
    terminate E process
  else
    let* p := get_process process in
    print E (StartingAt (Process.start_time p));;
    let* p := get_process process in
    let* duration := attr (Process.duration p) in
    print E (WillBeTerminated (duration / 60) (Process.end_time p));;
    monitor E fuel process;;
    print E DurationPassed;;
    report_termination E report;;
    terminate E process.

(** ** The phases of [main]

    The body of [main] cut at the points where the watchdog changes state:
    waiting for the process, opening the session, then either the
    over-the-limit path or monitoring followed by termination.
    [main_phases] below shows that [main] is their composition. *)

Definition awaiting_start (E : Env) (fuel : nat) (args : Namespace)
    : M (loc * loc) :=
  let* process := Process_init (process args) in
  let* report := Report_init E process (report_dir args) in
  print E (StartingToMonitor process);;
  let* state := get_state E process in
  print E (CurrentState state);;
  (if Process.State_eqb state Process.On then print E AlreadyOn
   else (print E WaitingForStart;; wait_until_started E fuel process));;
  ret (process, report).

Definition open_session (E : Env) (args : Namespace) (process report : loc)
    : M unit :=
  prepare_to_monitor E process (duration args);;
  report_start E report.

Definition over_limit (E : Env) (args : Namespace) (process report : loc)
    (r : Report.t) : M unit :=
  print E (TooManyTimes (Report.times_opened r) (max_times_opened args));;
  report_termination E report;;
  terminate E process.

Definition monitoring (E : Env) (fuel : nat) (process : loc) : M unit :=
  let* p := get_process process in
  print E (StartingAt (Process.start_time p));;
  let* p := get_process process in
  let* duration := attr (Process.duration p) in
  print E (WillBeTerminated (duration / 60) (Process.end_time p));;
  monitor E fuel process.

Definition terminating (E : Env) (process report : loc) : M unit :=
  print E DurationPassed;;
  report_termination E report;;
  terminate E process.

(** The requests to end the process that a trace holds. *)
Definition is_kill_request (e : Event) : bool :=
  match e with
  | Kill _ | WinTerminateProcess _ => true
  | _ => false
  end.

Definition is_progress (e : Event) : bool :=
  match e with
  | Print (Monitoring _) => true
  | _ => false
  end.

Definition is_print (e : Event) : bool :=
  match e with
  | Print _ => true
  | _ => false
  end.

Definition is_sleep (e : Event) : bool :=
  match e with
  | Sleep _ => true
  | _ => false
  end.

(** ** A session on a table

    What [report_start], and then [report_termination] when the run gets
    that far, do to the table. *)

Record Session := mkSession {
  s_date : Z;
  s_start_time : Q;
  s_end_time : Q;
  s_duration : option Q;
  s_closed_at : option Q
}.

Definition session_count (df : list Line.t) (x : Session) : option Z :=
  _get_times_opened_today df (s_date x).

Definition session_table (df : list Line.t) (x : Session) : list Line.t :=
  match session_count df x with
  | Some n =>
      let df1 :=
        loc_set df (_get_last_index df + 1)
          (Line.mk (s_date x) (time_of (s_start_time x))
             (time_of (s_end_time x)) Line.unknown (s_duration x) n) in
      match s_closed_at x with
      | Some t => update_actual_end_time df1 (_get_last_index df1) (time_of t)
      | None => df1
      end
  | None => df
  end.

(** ** Vocabulary of the properties *)

(** The end-time cell of a session closed at an instant, or not closed. *)
Definition cell_of (closed_at : option Q) : Line.end_time_cell :=
  match closed_at with
  | Some t => Line.iso (time_of t)
  | None => Line.unknown
  end.

(** A table is counted when, day by day, the count column of the lines of
    that day reads 1, 2, 3, ... *)
Definition counted (df : list Line.t) : Prop :=
  forall d,
    List.map Line.times_opened_today (today_df df d)
    = List.map Z.of_nat (seq 1 (List.length (today_df df d))).

Definition same_day (d : Z) (x : Session) : bool := (s_date x =? d)%Z.

(** The three calls on win32, the one call elsewhere. *)
Definition terminate_events (E : Env) (s : St) : list Event :=
  let pid := scan_pid (process (args E)) (process_iter E (now s)) in
  match platform E with
  | win32 =>
      let handle := OpenProcess E pid (now (tick E s)) in
      [WinOpenProcess pid; WinTerminateProcess handle; WinCloseHandle handle]
  | posix => [Kill pid]
  end.

Definition terminate_result (E : Env) (s : St) : Res unit :=
  match platform E with
  | win32 => Done tt
  | posix =>
      match os_kill E (scan_pid (process (args E)) (process_iter E (now s)))
              (now (tick E s)) with
      | None => Done tt
      | Some e => Raise e
      end
  end.

(** The state after one round of the waiting loop. *)
Definition wait_round (E : Env) (s : St) : St :=
  tick E (tick E (advance (1 # 10) (emit (Sleep (1 # 10)) s))).

Definition wait_probe (E : Env) (s : St) : Process.State :=
  scan_state (process (args E))
    (process_iter E (now (tick E (advance (1 # 10) (emit (Sleep (1 # 10)) s))))).

(** The state after one round of the monitoring loop. *)
Definition monitor_round (E : Env) (interval percentage : Q) (s : St) : St :=
  tick E (tick E (tick E (advance interval (emit (Sleep interval)
    (tick E (emit (Print (Monitoring percentage)) s)))))).

Definition monitor_clock (E : Env) (interval percentage : Q) (s : St) : Q :=
  now (tick E (advance interval (emit (Sleep interval)
    (tick E (emit (Print (Monitoring percentage)) s))))).

Definition monitor_probe (E : Env) (interval percentage : Q) (s : St)
    : Process.State :=
  scan_state (process (args E))
    (process_iter E (now (tick E (tick E (advance interval
      (emit (Sleep interval)
         (tick E (emit (Print (Monitoring percentage)) s)))))))).

Definition percentage_of (st et c : Q) : Q :=
  round2 (100 * ((c - st) / (et - st))).

(** The clock under latencies that are never negative. *)
Definition monotone (E : Env) : Prop := forall k, 0 <= latency E k.

(** Only [time.sleep] takes time. *)
Definition ideal_timing (E : Env) : Prop := forall k, latency E k == 0.

(** The process is in the table at every instant from [t0] on. *)
Definition running_from (E : Env) (t0 : Q) : Prop :=
  forall t, t0 <= t ->
    scan_state (process (args E)) (process_iter E t) = Process.On.

Definition monitor_event (interval : Q) (e : Event) : Prop :=
  is_progress e = true \/ e = Sleep interval.

(** No step takes more than [eps] beyond a requested sleep. *)
Definition bounded_latency (E : Env) (eps : Q) : Prop :=
  forall k, 0 <= latency E k /\ latency E k <= eps.

Definition report_table (E : Env) (args : Namespace) (s : St) : list Line.t :=
  default [] (fs s !! _get_report_file_name E (report_dir args) (process args)).

Definition main_by_phases (E : Env) (fuel : nat) (args : Namespace) : M unit :=
  let* pr := awaiting_start E fuel args in
  open_session E args (fst pr) (snd pr);;
  let* r := get_report (snd pr) in
  if (max_times_opened args <? Report.times_opened r)%Z
  then over_limit E args (fst pr) (snd pr) r
  else (monitoring E fuel (fst pr);; terminating E (fst pr) (snd pr)).

(** No process bears the global name at the clock of [s]. *)
Definition vanished (E : Env) (s : St) : Prop :=
  scan_state (process (args E)) (process_iter E (now s)) = Process.Off.

(** The state in which the monitoring loop starts: two lines printed, the
    table probed and the clock read. *)
Definition monitoring_entry (E : Env) (p : Process.t) (d : Q) (s : St) : St :=
  tick E (emit (Print (WillBeTerminated (d / 60) (Process.end_time p)))
    (tick E (emit (Print (StartingAt (Process.start_time p))) s))).

(** The tables that successive runs of [main] leave in one report file,
    with the days at which the runs that saw the process were started, in
    order.  Each run finds in the file what the run before it left there,
    nothing before the first; a run that is still waiting when it is
    stopped counts for no day. *)
Inductive written_by_runs (file : string) : list Z -> list Line.t -> Prop :=
| runs_none : written_by_runs file [] []
| runs_seen days df E fuel a s0 s1 pl rl :
    written_by_runs file days df ->
    _get_report_file_name E (report_dir a) (process a) = file ->
    report_table E a s0 = df ->
    awaiting_start E fuel a s0 = (Done (pl, rl), s1) ->
    written_by_runs file (days ++ [date_of (now s0)])
      (report_table E a (snd (main E fuel a s0)))
| runs_waiting days df E fuel a s0 s1 :
    written_by_runs file days df ->
    _get_report_file_name E (report_dir a) (process a) = file ->
    report_table E a s0 = df ->
    awaiting_start E fuel a s0 = (OutOfFuel, s1) ->
    written_by_runs file days (report_table E a (snd (main E fuel a s0))).

(** The percentages of the progress lines of a trace, in order. *)
Fixpoint progress_of (evs : list Event) : list Q :=
  match evs with
  | [] => []
  | Print (Monitoring q) :: evs' => q :: progress_of evs'
  | _ :: evs' => progress_of evs'
  end.

(** No element is above a later one. *)
Fixpoint nondecreasing (l : list Q) : Prop :=
  match l with
  | [] => True
  | x :: l' => Forall (Qle x) l' /\ nondecreasing l'
  end.

(** ** Sample worlds *)

Definition no_latency : nat -> Q := fun _ => 0.
Definition kill_succeeds : Z -> Q -> option Exn := fun _ _ => None.
Definition no_handle : Z -> Q -> Z := fun _ _ => 0%Z.

Definition firefox_args : Namespace := mkArgs "firefox" "/tmp" 600 3.

Definition firefox_env : Env :=
  mkEnv firefox_args posix no_latency (fun _ => [mkProc "firefox" 42])
    kill_succeeds no_handle.

Definition chrome_instance : St :=
  mkSt 0 0%nat ∅ []
    {[ 0%nat := OProcess (Process.mk "chrome" None None None) ]} 1%nat.

(** A machine just started at clock [t], with the given files. *)
Definition boot (t : Q) (files : gmap string (list Line.t)) : St :=
  mkSt t 0%nat files [] ∅ 0%nat.

Definition firefox_file : string := "/tmp/firefox_report.csv".

(** A session is open: the process object is prepared and the report holds
    the one line it has just written. *)
Definition session_opened : St :=
  mkSt 100 0%nat {[ firefox_file := [] ]} []
    {[ 0%nat := OProcess (Process.mk "firefox" (Some 100) (Some 700) (Some 600));
       1%nat := OReport (Report.mk 0 "/tmp" 0%nat firefox_file [] 1) ]}
    2%nat.

(** A machine on which every step takes a millisecond, one session
    already recorded today, and at most one launch allowed. *)
Definition strict_args : Namespace := mkArgs "firefox" "/tmp" 600 1.

Definition slow_env : Env :=
  mkEnv strict_args posix (fun _ => 1 # 1000)
    (fun _ => [mkProc "firefox" 42]) kill_succeeds no_handle.

Definition one_session_today : gmap string (list Line.t) :=
  {[ firefox_file := [Line.mk 0 10 610 (Line.iso 610) (Some 600) 1] ]}.

(** A machine, not win32, on which the process leaves by itself after
    five seconds, watched for ten. *)
Definition patient_args : Namespace := mkArgs "firefox" "/tmp" 10 3.

Definition leaving_env : Env :=
  mkEnv patient_args posix no_latency
    (fun t => if Qlt_bool t 5 then [mkProc "firefox" 42] else [])
    kill_succeeds no_handle.

(** A machine started one second before midnight; the process shows up
    five seconds after midnight and stays; it is watched for one second. *)
Definition night_args : Namespace := mkArgs "firefox" "/tmp" 1 3.

Definition night_env : Env :=
  mkEnv night_args posix no_latency
    (fun t => if Qlt_bool t 86405 then [] else [mkProc "firefox" 42])
    kill_succeeds no_handle.





Definition chrome_file : string := "/tmp/chrome_report.csv".

(** Two report files, one line each. *)
Definition two_reports : gmap string (list Line.t) :=
  {[ firefox_file := [Line.mk 0 10 610 (Line.iso 610) (Some 600) 1];
     chrome_file := [Line.mk 0 20 80 (Line.iso 80) (Some 60) 1] ]}.

(** * Properties *)

(** ** The probe *)

Lemma scan_pid_none wanted it :
  (forall p, In p it -> proc_name p <> wanted) -> scan_pid wanted it = (-1)%Z.
Proof.
  induction it as [|q it IH]; intros Hno; simpl; [reflexivity|].
  destruct (String.eqb_spec (proc_name q) wanted) as [Heq|_].
  - exfalso. apply (Hno q); [now left | exact Heq].
  - apply IH. intros p Hp. apply Hno. now right.
Qed.


Lemma scan_state_On wanted it :
  scan_state wanted it = Process.On <->
  exists p, In p it /\ proc_name p = wanted.
Proof.
  induction it as [|q it IH]; simpl.
  - split; [discriminate | intros (p & [] & _)].
  - destruct (String.eqb_spec (proc_name q) wanted) as [Heq|Hne].
    + split; [|reflexivity]. intros _. exists q. split; [now left | exact Heq].
    + rewrite IH. split.
      * intros (p & Hin & Hp). exists p. split; [now right | exact Hp].
      * intros (p & [Hq|Hin] & Hp); [congruence|]. exists p. now split.
Qed.

Lemma scan_state_Off wanted it :
  scan_state wanted it = Process.Off <->
  forall p, In p it -> proc_name p <> wanted.
Proof.
  split.
  - intros Hoff p Hin Hp.
    assert (scan_state wanted it = Process.On) as Hon
      by (apply scan_state_On; exists p; now split).
    congruence.
  - intros Hno. destruct (scan_state wanted it) eqn:Hs; [|reflexivity].
    apply scan_state_On in Hs as (p & Hin & Hp). now apply Hno in Hin.
Qed.

Lemma get_pid_run E self s :
  get_pid E self s = (Done (scan_pid (process (args E)) (process_iter E (now s))), tick E s).
Proof. reflexivity. Qed.

Lemma get_state_run E self s :
  get_state E self s =
  (Done (scan_state (process (args E)) (process_iter E (now s))), tick E s).
Proof. reflexivity. Qed.

(** C7, at the failing input.  The instance at location 0 is named
    "chrome", the global [args.process] is "firefox" and the only process is
    "firefox" with pid 42: no process bears the instance's own name, yet
    [get_pid] answers 42 and [get_state] answers [On], because both compare
    with the global and never read [self.name]. *)
Theorem C7_probe_compares_with_global_args :
  heap chrome_instance !! 0%nat
    = Some (OProcess (Process.mk "chrome" None None None)) /\
  scan_pid "chrome" (process_iter firefox_env (now chrome_instance)) = (-1)%Z /\
  scan_state "chrome" (process_iter firefox_env (now chrome_instance))
    = Process.Off /\
  fst (get_pid firefox_env 0%nat chrome_instance) = Done 42%Z /\
  fst (get_state firefox_env 0%nat chrome_instance) = Done Process.On.
Proof. repeat split; reflexivity. Qed.

(** ** The daily count *)

Lemma iloc_last_index (df : list Line.t) :
  df <> [] -> iloc df (_get_last_index df) = last df.
Proof.
  intros Hne. unfold iloc, _get_last_index.
  destruct df as [|r df]; [congruence|].
  rewrite last_lookup. cbn [List.length].
  replace (0 <=? Z.of_nat (S (List.length df)) - 1)%Z with true
    by (symmetry; apply Z.leb_le; lia).
  f_equal. lia.
Qed.

Lemma loc_set_append (df : list Line.t) (row : Line.t) :
  loc_set df (_get_last_index df + 1) row = df ++ [row].
Proof.
  unfold loc_set, _get_last_index.
  replace (Z.of_nat (List.length df) - 1 + 1 <? Z.of_nat (List.length df))%Z
    with false by (symmetry; apply Z.ltb_ge; lia).
  now rewrite andb_false_r.
Qed.

Lemma update_actual_end_time_snoc (df : list Line.t) (row : Line.t) (v : Q) :
  update_actual_end_time (df ++ [row]) (_get_last_index (df ++ [row])) v =
  df ++ [Line.set_actual_end_time (Line.iso v) row].
Proof.
  unfold update_actual_end_time, _get_last_index.
  rewrite List.length_app. cbn [List.length].
  replace (Z.of_nat (List.length df + 1) - 1)%Z
    with (Z.of_nat (List.length df)) by lia.
  rewrite Nat2Z.id.
  replace (0 <=? Z.of_nat (List.length df))%Z with true
    by (symmetry; apply Z.leb_le; lia).
  replace (Z.of_nat (List.length df) <? Z.of_nat (List.length df + 1))%Z
    with true by (symmetry; apply Z.ltb_lt; lia).
  cbn [andb].
  replace (List.length df) with (List.length df + 0)%nat at 1 by lia.
  rewrite (alter_app_r _ df [row] 0). reflexivity.
Qed.

Lemma today_df_app df1 df2 d :
  today_df (df1 ++ df2) d = today_df df1 d ++ today_df df2 d.
Proof. unfold today_df. apply List.filter_app. Qed.

Lemma today_df_date df d r : In r (today_df df d) -> Line.date r = d.
Proof.
  unfold today_df. rewrite List.filter_In. intros [_ H].
  now apply Z.eqb_eq in H.
Qed.

Lemma today_df_alter (n : nat) (df : list Line.t) v d :
  List.map Line.times_opened_today
    (today_df (alter (Line.set_actual_end_time v) n df) d)
  = List.map Line.times_opened_today (today_df df d).
Proof.
  revert n. induction df as [|r df IH]; intros n; [reflexivity|].
  destruct n as [|n].
  - change (alter (Line.set_actual_end_time v) 0%nat (r :: df))
      with (Line.set_actual_end_time v r :: df).
    unfold today_df. cbn [List.filter Line.set_actual_end_time Line.date].
    destruct (Line.date r =? d)%Z; reflexivity.
  - change (alter (Line.set_actual_end_time v) (S n) (r :: df))
      with (r :: alter (Line.set_actual_end_time v) n df).
    specialize (IH n). unfold today_df in *. cbn [List.filter].
    destruct (Line.date r =? d)%Z; cbn [List.map]; now rewrite IH.
Qed.

Lemma today_df_update df i v d :
  List.map Line.times_opened_today (today_df (update_actual_end_time df i v) d)
  = List.map Line.times_opened_today (today_df df d).
Proof.
  unfold update_actual_end_time.
  destruct ((0 <=? i) && (i <? Z.of_nat (List.length df)))%Z; [|reflexivity].
  apply today_df_alter.
Qed.

Lemma today_df_update_length df i v d :
  List.length (today_df (update_actual_end_time df i v) d)
  = List.length (today_df df d).
Proof.
  rewrite <- (List.length_map Line.times_opened_today), today_df_update.
  apply List.length_map.
Qed.

(** The count is the last line of the day plus one, or 1 on a fresh day;
    it never fails. *)
Lemma times_opened_today_fresh df d :
  today_df df d = [] -> _get_times_opened_today df d = Some 1%Z.
Proof. unfold _get_times_opened_today. now intros ->. Qed.

Lemma times_opened_today_last df d r :
  last (today_df df d) = Some r ->
  _get_times_opened_today df d = Some (Line.times_opened_today r + 1)%Z.
Proof.
  intros Hlast. unfold _get_times_opened_today.
  destruct (today_df df d) as [|r0 t] eqn:Ht; [discriminate|].
  rewrite iloc_last_index by discriminate. now rewrite Hlast.
Qed.

Lemma times_opened_today_total df d :
  exists n, _get_times_opened_today df d = Some n.
Proof.
  destruct (last (today_df df d)) as [r|] eqn:Hlast.
  - eexists. exact (times_opened_today_last _ _ _ Hlast).
  - apply last_None in Hlast. eexists.
    exact (times_opened_today_fresh _ _ Hlast).
Qed.

Lemma counted_count df d :
  counted df ->
  _get_times_opened_today df d
  = Some (Z.of_nat (List.length (today_df df d)) + 1)%Z.
Proof.
  intros Hc. specialize (Hc d).
  destruct (last (today_df df d)) as [r|] eqn:Hlast.
  - rewrite (times_opened_today_last _ _ _ Hlast).
    apply last_Some in Hlast as [l' Hl']. rewrite Hl' in Hc |- *.
    rewrite List.length_app, List.map_app in *. cbn [List.length List.map] in *.
    rewrite seq_app, List.map_app in Hc. cbn in Hc.
    apply app_inj_tail in Hc as [_ Hc]. rewrite Hc. do 2 f_equal. lia.
  - apply last_None in Hlast. rewrite Hlast.
    now rewrite times_opened_today_fresh.
Qed.

Lemma counted_session df x : counted df -> counted (session_table df x).
Proof.
  intros Hc d. unfold session_table, session_count.
  rewrite (counted_count df (s_date x) Hc), loc_set_append.
  set (row := Line.mk _ _ _ _ _ _).
  assert (List.map Line.times_opened_today (today_df (df ++ [row]) d)
          = List.map Z.of_nat (seq 1 (List.length (today_df (df ++ [row]) d))))
    as Happ.
  { rewrite today_df_app, List.map_app, List.length_app. unfold today_df at 2 4.
    cbn [List.filter]. subst row. cbn [Line.date].
    destruct (Z.eqb_spec (s_date x) d) as [->|Hne]; cbn [List.length List.map].
    - rewrite seq_app, List.map_app, (Hc d). cbn. do 3 f_equal. lia.
    - rewrite !app_nil_r, Nat.add_0_r. apply Hc. }
  destruct (s_closed_at x) as [t|]; [|exact Happ].
  now rewrite today_df_update, today_df_update_length.
Qed.

Lemma today_df_session_length df x d :
  counted df ->
  List.length (today_df (session_table df x) d)
  = (List.length (today_df df d) + (if same_day d x then 1 else 0))%nat.
Proof.
  intros Hc. unfold session_table, session_count.
  rewrite (counted_count df (s_date x) Hc), loc_set_append.
  set (row := Line.mk _ _ _ _ _ _).
  assert (List.length (today_df (df ++ [row]) d)
          = (List.length (today_df df d) + (if same_day d x then 1 else 0))%nat)
    as Happ.
  { rewrite today_df_app, List.length_app. unfold today_df at 2, same_day.
    cbn [List.filter]. subst row. cbn [Line.date].
    now destruct (s_date x =? d)%Z. }
  destruct (s_closed_at x) as [t|]; [|exact Happ].
  now rewrite today_df_update_length.
Qed.

(** ** Running the methods *)

Ltac mrun :=
  cbv beta iota delta
    [bind ret raise out_of_fuel attr operand index get_report get_process
     put_obj
     alloc datetime_now print to_csv psutil_process_iter get_pid get_state
     os_path_exists read_csv time_sleep];
  cbn [heap now fs trace ticks next_loc store tick emit advance write_file
       bump fst snd].

Tactic Notation "mrun" "in" hyp(H) :=
  cbv beta iota delta
    [bind ret raise out_of_fuel attr operand index get_report get_process
     put_obj
     alloc datetime_now print to_csv psutil_process_iter get_pid get_state
     os_path_exists read_csv time_sleep] in H;
  cbn [heap now fs trace ticks next_loc store tick emit advance write_file
       bump fst snd] in H.

Lemma prepare_to_monitor_run E self d s p :
  heap s !! self = Some (OProcess p) ->
  prepare_to_monitor E self d s =
  (Done tt,
   store self
     (OProcess (Process.mk (Process.name p) (Some (now s)) (Some (now s + d))
                  (Some d)))
     (tick E s)).
Proof.
  intros Hself. unfold prepare_to_monitor. mrun. rewrite Hself. reflexivity.
Qed.

Lemma report_start_run E self s r p st et n :
  heap s !! self = Some (OReport r) ->
  heap s !! Report.process r = Some (OProcess p) ->
  Process.start_time p = Some st ->
  Process.end_time p = Some et ->
  _get_times_opened_today (Report.report_df r) (Report.date r) = Some n ->
  let row := Line.mk (Report.date r) (time_of st) (time_of et) Line.unknown
               (Process.duration p) n in
  let df := Report.report_df r ++ [row] in
  report_start E self s =
  (Done tt,
   tick E (write_file (Report.report_file_name r) df
     (emit (ToCsv (Report.report_file_name r) df)
        (store self (OReport (Report.set_report_df df r)) s)))).
Proof.
  intros Hself Hproc Hst Het Hn row df.
  unfold report_start. mrun. rewrite Hself. mrun. rewrite Hn. mrun.
  rewrite Hproc. mrun. rewrite Hst, Het. mrun.
  rewrite loc_set_append. reflexivity.
Qed.

Lemma report_termination_run E self s r :
  heap s !! self = Some (OReport r) ->
  let df := update_actual_end_time (Report.report_df r)
              (_get_last_index (Report.report_df r)) (time_of (now s)) in
  report_termination E self s =
  (Done tt,
   tick E (write_file (Report.report_file_name r) df
     (emit (ToCsv (Report.report_file_name r) df)
        (store self (OReport (Report.set_report_df df r)) (tick E s))))).
Proof.
  intros Hself df. unfold report_termination. mrun. rewrite Hself.
  reflexivity.
Qed.

Lemma terminate_run E self s :
  exists s',
    terminate E self s = (terminate_result E s, s') /\
    trace s' = trace s ++ terminate_events E s /\
    heap s' = heap s /\ fs s' = fs s.
Proof.
  unfold terminate, terminate_result, terminate_events.
  destruct (platform E); mrun.
  - eexists. split; [reflexivity|]. cbn. rewrite <- !app_assoc. now cbn.
  - destruct (os_kill E _ _); eexists; (split; [reflexivity|]); now cbn.
Qed.

Lemma terminate_one_request E s :
  List.length (List.filter is_kill_request (terminate_events E s)) = 1%nat.
Proof. unfold terminate_events. now destruct (platform E). Qed.

(** ** The two polling loops *)

Lemma wait_loop_eq E fuel self state s :
  wait_loop E fuel self state s =
  match state with
  | Process.On => (Done tt, s)
  | Process.Off =>
      match fuel with
      | O => (OutOfFuel, s)
      | S fuel' => wait_loop E fuel' self (wait_probe E s) (wait_round E s)
      end
  end.
Proof. destruct state, fuel; reflexivity. Qed.

Lemma monitor_loop_eq E fuel self interval state c s p st et :
  heap s !! self = Some (OProcess p) ->
  Process.start_time p = Some st ->
  Process.end_time p = Some et ->
  monitor_loop E fuel self interval state c s =
  if Process.State_eqb state Process.On && Qlt_bool c et then
    match fuel with
    | O => (OutOfFuel, s)
    | S fuel' =>
        if Qeq_bool (et - st) 0 then (Raise ZeroDivisionError, s)
        else if Qlt_bool interval 0
        then (Raise ValueError,
              tick E (emit (Print (Monitoring (percentage_of st et c))) s))
        else
          monitor_loop E fuel' self interval
            (monitor_probe E interval (percentage_of st et c) s)
            (monitor_clock E interval (percentage_of st et c) s)
            (monitor_round E interval (percentage_of st et c) s)
    end
  else (Done tt, s).
Proof.
  intros Hself Hst Het.
  destruct fuel; cbn [monitor_loop]; mrun; rewrite Hself; mrun;
    destruct state; cbn [Process.State_eqb andb]; mrun;
    rewrite ?Het; mrun; try reflexivity;
    destruct (Qlt_bool c et); try reflexivity.
  rewrite Hst. mrun. unfold get_duration_percentage.
  destruct (Qeq_bool (et - st) 0); mrun; [reflexivity|].
  destruct (Qlt_bool interval 0); reflexivity.
Qed.

Lemma Qlt_bool_iff a b : Qlt_bool a b = true <-> a < b.
Proof.
  unfold Qlt_bool. rewrite negb_true_iff, <- not_true_iff_false, Qle_bool_iff.
  split; [apply Qnot_le_lt | apply Qlt_not_le].
Qed.

Lemma Qlt_bool_false a b : Qlt_bool a b = false <-> b <= a.
Proof.
  unfold Qlt_bool. rewrite negb_false_iff. apply Qle_bool_iff.
Qed.

Lemma ideal_monotone E : ideal_timing E -> monotone E.
Proof. intros H k. rewrite (H k). apply Qle_refl. Qed.

Lemma now_tick E s : now (tick E s) == now s + latency E (ticks s).
Proof. reflexivity. Qed.

Lemma tick_le E s : monotone E -> now s <= now (tick E s).
Proof. intros Hm. cbn. specialize (Hm (ticks s)). lra. Qed.

(** Events of the waiting loop: sleeps of a tenth of a second. *)
Lemma wait_loop_frame E fuel self : forall state s res s',
  wait_loop E fuel self state s = (res, s') ->
  heap s' = heap s /\ fs s' = fs s /\ next_loc s' = next_loc s /\
  (res = Done tt \/ res = OutOfFuel) /\
  exists n, trace s' = trace s ++ repeat (Sleep (1 # 10)) n.
Proof.
  induction fuel as [|fuel IH]; intros state s res s'; rewrite wait_loop_eq.
  - destruct state; intros [= <- <-]; repeat split; auto;
      exists 0%nat; cbn; now rewrite app_nil_r.
  - destruct state.
    + intros [= <- <-]; repeat split; auto.
      exists 0%nat; cbn; now rewrite app_nil_r.
    + intros Hrun. apply IH in Hrun as (Hh & Hf & Hn & Hres & n & Ht).
      repeat split; auto. exists (S n). rewrite Ht. cbn.
      now rewrite <- app_assoc.
Qed.

Lemma wait_loop_clock E fuel self : forall state s res s',
  monotone E ->
  wait_loop E fuel self state s = (res, s') -> now s <= now s'.
Proof.
  induction fuel as [|fuel IH]; intros state s res s' Hm; rewrite wait_loop_eq.
  - destruct state; intros [= <- <-]; apply Qle_refl.
  - destruct state; [intros [= <- <-]; apply Qle_refl|].
    intros Hrun. apply IH in Hrun; [|exact Hm].
    eapply Qle_trans; [|exact Hrun]. unfold wait_round. cbn.
    pose proof (Hm (ticks s)). pose proof (Hm (S (ticks s))). lra.
Qed.

Lemma inject_nat_succ (n : nat) :
  inject_Z (Z.of_nat (S n)) == inject_Z (Z.of_nat n) + 1.
Proof. rewrite Nat2Z.inj_succ. unfold Z.succ. now rewrite inject_Z_plus. Qed.

(** The waiting loop ends once the process is there for good: each round
    moves the clock by a tenth of a second at least.  [tau] is the instant
    at which [state] was sampled. *)
Lemma wait_loop_ends E fuel self t0 : forall tau s,
  monotone E ->
  running_from E t0 ->
  tau <= now s ->
  t0 <= tau + inject_Z (Z.of_nat fuel) * (1 # 10) ->
  exists s',
    wait_loop E fuel self
      (scan_state (process (args E)) (process_iter E tau)) s = (Done tt, s').
Proof.
  induction fuel as [|fuel IH]; intros tau s Hm Hrun Htau Hfuel;
    rewrite wait_loop_eq.
  - rewrite Hrun; [eexists; reflexivity|].
    change (inject_Z (Z.of_nat 0)) with 0 in Hfuel. lra.
  - destruct (scan_state _ (process_iter E tau)); [eexists; reflexivity|].
    unfold wait_probe. apply IH; auto.
    + unfold wait_round. cbn. pose proof (Hm (S (ticks s))). lra.
    + rewrite inject_nat_succ in Hfuel. cbn. pose proof (Hm (ticks s)). lra.
Qed.

Lemma wait_until_started_ends E fuel self t0 s :
  monotone E ->
  running_from E t0 ->
  t0 <= now s + inject_Z (Z.of_nat fuel) * (1 # 10) ->
  exists s', wait_until_started E fuel self s = (Done tt, s').
Proof.
  intros Hm Hrun Hfuel. unfold wait_until_started. mrun.
  apply (wait_loop_ends E fuel self t0); auto. now apply tick_le.
Qed.

(** *** Monitoring *)

Section MonitorLoop.
Variables (E : Env) (self : loc) (interval : Q).
Variables (p : Process.t) (st et : Q).
Hypothesis Hst : Process.start_time p = Some st.
Hypothesis Het : Process.end_time p = Some et.

(** The loop leaves the objects and the files alone; what it adds to the
    trace are progress lines and sleeps of the one interval. *)
Lemma monitor_loop_frame fuel : forall state c s res s',
  heap s !! self = Some (OProcess p) ->
  monitor_loop E fuel self interval state c s = (res, s') ->
  heap s' = heap s /\ fs s' = fs s /\ next_loc s' = next_loc s /\
  exists evs, trace s' = trace s ++ evs /\ Forall (monitor_event interval) evs.
Proof.
  induction fuel as [|fuel IH]; intros state c s res s' Hself;
    rewrite (monitor_loop_eq _ _ _ _ _ _ _ _ _ _ Hself Hst Het).
  - destruct (_ && _); intros [= <- <-]; repeat split; auto;
      exists []; (split; [now rewrite app_nil_r | constructor]).
  - destruct (_ && _).
    2:{ intros [= <- <-]; repeat split; auto.
        exists []; (split; [now rewrite app_nil_r | constructor]). }
    destruct (Qeq_bool (et - st) 0).
    { intros [= <- <-]; repeat split; auto.
      exists []; (split; [now rewrite app_nil_r | constructor]). }
    destruct (Qlt_bool interval 0).
    { intros [= <- <-]; repeat split; auto.
      eexists [_]; split; [reflexivity|].
      constructor; [now left | constructor]. }
    intros Hrun. apply IH in Hrun as (Hh & Hf & Hn & evs & Ht & Hevs);
      [|exact Hself].
    repeat split; auto.
    exists (Print (Monitoring (percentage_of st et c)) :: Sleep interval :: evs).
    split.
    + rewrite Ht. cbn. now rewrite <- !app_assoc.
    + constructor; [now left|]. constructor; [now right | exact Hevs].
Qed.

(** Under a monotone clock the divisor of the percentage is never zero,
    and the clock never runs backwards. *)
Lemma monitor_loop_safe fuel : forall state c s res s',
  monotone E ->
  heap s !! self = Some (OProcess p) ->
  st <= c -> st <= now s ->
  monitor_loop E fuel self interval state c s = (res, s') ->
  res <> Raise ZeroDivisionError /\ now s <= now s'.
Proof.
  induction fuel as [|fuel IH]; intros state c s res s' Hm Hself Hc Hnow;
    rewrite (monitor_loop_eq _ _ _ _ _ _ _ _ _ _ Hself Hst Het).
  - destruct (_ && _); intros [= <- <-]; (split; [discriminate|apply Qle_refl]).
  - destruct (Process.State_eqb state Process.On && Qlt_bool c et) eqn:Hcond.
    2:{ intros [= <- <-]; (split; [discriminate|apply Qle_refl]). }
    apply andb_true_iff in Hcond as [_ Hlt]. apply Qlt_bool_iff in Hlt.
    destruct (Qeq_bool (et - st) 0) eqn:Hz.
    { apply Qeq_bool_iff in Hz. lra. }
    pose proof (Hm (ticks s)) as L0. pose proof (Hm (S (ticks s))) as L1.
    pose proof (Hm (S (S (ticks s)))) as L2.
    pose proof (Hm (S (S (S (ticks s))))) as L3.
    destruct (Qlt_bool interval 0) eqn:Hi.
    { intros [= <- <-]. split; [discriminate|]. cbn. lra. }
    apply Qlt_bool_false in Hi.
    intros Hrun. apply IH in Hrun as [Hres Hclock]; auto.
    + split; [exact Hres|]. eapply Qle_trans; [|exact Hclock].
      unfold monitor_round. cbn. lra.
    + unfold monitor_clock. cbn. lra.
    + unfold monitor_round. cbn. lra.
Qed.

(** With a positive interval the loop ends within the rounds that the
    window can hold. *)
Lemma monitor_loop_ends fuel : forall state c s,
  monotone E ->
  heap s !! self = Some (OProcess p) ->
  0 <= interval ->
  st <= c -> c <= now s ->
  et <= c + inject_Z (Z.of_nat fuel) * interval ->
  exists s', monitor_loop E fuel self interval state c s = (Done tt, s').
Proof.
  induction fuel as [|fuel IH]; intros state c s Hm Hself Hi Hc Hnow Hfuel;
    rewrite (monitor_loop_eq _ _ _ _ _ _ _ _ _ _ Hself Hst Het).
  - destruct (Process.State_eqb state Process.On && Qlt_bool c et) eqn:Hcond;
      [|eexists; reflexivity].
    apply andb_true_iff in Hcond as [_ Hlt]. apply Qlt_bool_iff in Hlt.
    change (inject_Z (Z.of_nat 0)) with 0 in Hfuel. lra.
  - destruct (Process.State_eqb state Process.On && Qlt_bool c et) eqn:Hcond;
      [|eexists; reflexivity].
    apply andb_true_iff in Hcond as [_ Hlt]. apply Qlt_bool_iff in Hlt.
    destruct (Qeq_bool (et - st) 0) eqn:Hz.
    { apply Qeq_bool_iff in Hz. lra. }
    replace (Qlt_bool interval 0) with false
      by (symmetry; now apply Qlt_bool_false).
    pose proof (Hm (ticks s)) as L0. pose proof (Hm (S (ticks s))) as L1.
    pose proof (Hm (S (S (ticks s)))) as L2.
    pose proof (Hm (S (S (S (ticks s))))) as L3.
    rewrite inject_nat_succ in Hfuel.
    apply IH; auto.
    + unfold monitor_clock. cbn. lra.
    + unfold monitor_clock, monitor_round. cbn. lra.
    + unfold monitor_clock. cbn. nra.
Qed.
End MonitorLoop.


Lemma bounded_monotone E eps : bounded_latency E eps -> monotone E.
Proof. intros H k. apply H. Qed.



Lemma monitor_run E fuel self s p d :
  heap s !! self = Some (OProcess p) ->
  Process.duration p = Some d ->
  monitor E fuel self s =
  monitor_loop E fuel self (interval d)
    (scan_state (process (args E)) (process_iter E (now s)))
    (now (tick E s)) (tick E (tick E s)).
Proof.
  intros Hself Hd. unfold monitor. mrun. rewrite Hself. mrun. rewrite Hd.
  reflexivity.
Qed.

(** *** Construction of the report *)

Lemma Report_init_run E process dir s p :
  heap s !! process = Some (OProcess p) ->
  let file := _get_report_file_name E dir (Process.name p) in
  let df := default [] (fs s !! file) in
  exists n s',
    _get_times_opened_today df (date_of (now s)) = Some n /\
    Report_init E process dir s = (Done (next_loc s), s') /\
    heap s' = <[next_loc s :=
                 OReport (Report.mk (date_of (now s)) dir process file df n)]>
                (heap s) /\
    fs s' !! file = Some df /\
    next_loc s' = S (next_loc s) /\
    (monotone E -> now s <= now s') /\
    exists evs, trace s' = trace s ++ evs /\
                List.filter is_kill_request evs = [] /\
                List.filter is_progress evs = [] /\
                List.filter is_sleep evs = [].
Proof.
  intros Hself file df.
  destruct (times_opened_today_total df (date_of (now s))) as [n Hn].
  exists n. unfold Report_init, _get_report_df, _create_new_report_csv.
  mrun. rewrite Hself. mrun. fold file. subst df.
  destruct (fs s !! file) as [rows|] eqn:Hfile; mrun.
  - rewrite Hfile. mrun.
    change (default [] (Some rows)) with rows in *. rewrite Hn. mrun.
    eexists. split; [reflexivity|]. split; [reflexivity|]. cbn.
    repeat split; auto.
    + intros Hm. pose proof (Hm (ticks s)). pose proof (Hm (S (ticks s))).
      pose proof (Hm (S (S (ticks s)))). lra.
    + exists []. now rewrite app_nil_r.
  - rewrite lookup_insert_eq. mrun.
    change (default [] None) with (@nil Line.t) in *. rewrite Hn. mrun.
    eexists. split; [reflexivity|]. split; [reflexivity|]. cbn.
    repeat split; auto.
    + apply lookup_insert_eq.
    + intros Hm. pose proof (Hm (ticks s)). pose proof (Hm (S (ticks s))).
      pose proof (Hm (S (S (ticks s)))). pose proof (Hm (S (S (S (ticks s))))).
      lra.
    + eexists [_]. split; [reflexivity|]. now cbn.
Qed.

(** *** Waiting for the process *)

Lemma filter_repeat_sleep (f : Event -> bool) d n :
  f (Sleep d) = false -> List.filter f (repeat (Sleep d) n) = [].
Proof. intros Hf. induction n as [|n IH]; cbn; [|rewrite Hf]; auto. Qed.

(** What [main] has built when the process is seen: the two objects, the
    report carrying the day and the table read at startup. *)
Lemma awaiting_start_done E fuel a s0 res s1 :
  awaiting_start E fuel a s0 = (res, s1) ->
  let process_l := next_loc s0 in
  let report_l := S (next_loc s0) in
  let file := _get_report_file_name E (report_dir a) (process a) in
  let df := report_table E a s0 in
  exists n,
    _get_times_opened_today df (date_of (now s0)) = Some n /\
    (res = Done (process_l, report_l) \/ res = OutOfFuel) /\
    heap s1 =
      <[report_l := OReport (Report.mk (date_of (now s0)) (report_dir a)
                               process_l file df n)]>
        (<[process_l := OProcess (Process.mk (process a) None None None)]>
           (heap s0)) /\
    fs s1 !! file = Some df /\
    (monotone E -> now s0 <= now s1) /\
    exists evs, trace s1 = trace s0 ++ evs /\
                List.filter is_kill_request evs = [] /\
                List.filter is_progress evs = [].
Proof.
  intros Hrun process_l report_l file df.
  unfold awaiting_start, Process_init in Hrun. mrun in Hrun.
  set (obj := OProcess (Process.mk (process a) None None None)) in *.
  set (sa := bump (store (next_loc s0) obj s0)) in *.
  assert (heap sa !! next_loc s0 = Some obj) as Hobj
    by (subst sa; cbn; apply lookup_insert_eq).
  destruct (Report_init_run E (next_loc s0) (report_dir a) sa _ Hobj)
    as (n & sb & Hn & Hinit & Hheap & Hfs & Hnext & Hclock & evs0 & Ht0 & Hk0 & Hp0 & _).
  rewrite Hinit in Hrun. clear Hinit. mrun in Hrun.
  exists n. split; [exact Hn|].
  set (st := scan_state _ _) in Hrun.
  assert (forall res' s' evs,
            (res' = Done tt \/ res' = OutOfFuel) ->
            heap s' = heap sb -> fs s' = fs sb ->
            (monotone E -> now sb <= now s') ->
            trace s' = trace sb ++ evs ->
            List.filter is_kill_request evs = [] ->
            List.filter is_progress evs = [] ->
            (match res' with
             | Done _ => (Done (process_l, report_l), s')
             | Raise e => (Raise e, s')
             | OutOfFuel => (OutOfFuel, s')
             end) = (res, s1) ->
            (res = Done (process_l, report_l) \/ res = OutOfFuel) /\
            heap s1 = <[report_l := OReport (Report.mk (date_of (now s0))
                           (report_dir a) process_l file df n)]>
                        (<[process_l := obj]> (heap s0)) /\
            fs s1 !! file = Some df /\
            (monotone E -> now s0 <= now s1) /\
            exists evs, trace s1 = trace s0 ++ evs /\
                        List.filter is_kill_request evs = [] /\
                        List.filter is_progress evs = []) as Hfinish.
  { intros res' s' evs Hres Hh Hf Hc Ht Hk Hp Heq.
    assert (s' = s1 /\ (res = Done (process_l, report_l) \/ res = OutOfFuel))
      as [<- Hres'].
    { destruct Hres as [-> | ->]; inversion Heq; auto. }
    split; [exact Hres'|]. split.
    { rewrite Hh, Hheap. reflexivity. }
    split; [rewrite Hf; exact Hfs|].
    split; [intros Hm; eapply Qle_trans; [apply Hclock, Hm | apply Hc, Hm]|].
    exists (evs0 ++ evs). rewrite Ht, Ht0. subst sa. cbn.
    rewrite <- app_assoc, !List.filter_app, Hk0, Hk, Hp0, Hp. auto. }
  destruct st eqn:Hst; cbn [Process.State_eqb] in Hrun; mrun in Hrun.
  - eapply (Hfinish (Done tt) _
              [Print (StartingToMonitor (next_loc s0));
               Print (CurrentState Process.On); Print AlreadyOn]
              (or_introl eq_refl) _ _ _ _ _ _ Hrun).
    Unshelve.
    all: cbn; rewrite <- ?app_assoc; try reflexivity.
    intros Hm.
    pose proof (Hm (ticks sb)). pose proof (Hm (S (ticks sb))).
    pose proof (Hm (S (S (ticks sb)))). pose proof (Hm (S (S (S (ticks sb))))).
    lra.
  - unfold wait_until_started in Hrun. mrun in Hrun.
    match type of Hrun with
    | context [wait_loop E fuel ?l ?st' ?s'] =>
        destruct (wait_loop E fuel l st' s') as [resw sw] eqn:Hw
    end.
    pose proof (fun Hm => wait_loop_clock E _ _ _ _ _ _ Hm Hw) as Hwc.
    apply wait_loop_frame in Hw as (Hh & Hf & _ & Hresw & k & Ht).
    cbn in Hh, Hf, Ht, Hwc.
    assert (monotone E -> now sb <= now sw) as Hc.
    { intros Hm. specialize (Hwc Hm).
      pose proof (Hm (ticks sb)). pose proof (Hm (S (ticks sb))).
      pose proof (Hm (S (S (ticks sb)))). pose proof (Hm (S (S (S (ticks sb))))).
      pose proof (Hm (S (S (S (S (ticks sb)))))). lra. }
    rewrite <- !app_assoc in Ht. cbn [app] in Ht.
    assert (List.filter is_kill_request
              (Print (StartingToMonitor (next_loc s0))
               :: Print (CurrentState Process.Off) :: Print WaitingForStart
               :: repeat (Sleep (1 # 10)) k) = []) as Hk
      by (cbn; now apply filter_repeat_sleep).
    assert (List.filter is_progress
              (Print (StartingToMonitor (next_loc s0))
               :: Print (CurrentState Process.Off) :: Print WaitingForStart
               :: repeat (Sleep (1 # 10)) k) = []) as Hp
      by (cbn; now apply filter_repeat_sleep).
    destruct Hresw as [-> | ->].
    + exact (Hfinish (Done tt) _ _ (or_introl eq_refl) Hh Hf Hc Ht Hk Hp Hrun).
    + exact (Hfinish OutOfFuel _ _ (or_intror eq_refl) Hh Hf Hc Ht Hk Hp Hrun).
Qed.

(** ** [main] is the composition of its phases *)

Ltac case_step :=
  match goal with
  | |- context [match ?m ?s with _ => _ end] =>
      lazymatch type of (m s) with
      | (Res _ * St)%type => destruct (m s) as [[?|?|] ?]
      end
  | |- context [if ?b then _ else _] => destruct b
  end.

Lemma main_phases E fuel a s : main E fuel a s = main_by_phases E fuel a s.
Proof.
  unfold main, main_by_phases, awaiting_start, open_session, over_limit,
    monitoring, terminating, bind, ret.
  repeat (first [reflexivity | case_step]; cbn [fst snd]).
Qed.

(** ** Opening and closing the session *)

Lemma open_session_run E a process_l report_l s1 r p n :
  heap s1 !! process_l = Some (OProcess p) ->
  heap s1 !! report_l = Some (OReport r) ->
  Report.process r = process_l ->
  _get_times_opened_today (Report.report_df r) (Report.date r) = Some n ->
  let row := Line.mk (Report.date r) (time_of (now s1))
               (time_of (now s1 + duration a)) Line.unknown
               (Some (duration a)) n in
  let df := Report.report_df r ++ [row] in
  let p' := Process.mk (Process.name p) (Some (now s1))
              (Some (now s1 + duration a)) (Some (duration a)) in
  exists s2,
    open_session E a process_l report_l s1 = (Done tt, s2) /\
    heap s2 !! process_l = Some (OProcess p') /\
    heap s2 !! report_l = Some (OReport (Report.set_report_df df r)) /\
    fs s2 !! Report.report_file_name r = Some df /\
    trace s2 = trace s1 ++ [ToCsv (Report.report_file_name r) df] /\
    now s2 == now s1 + latency E (ticks s1) + latency E (S (ticks s1)) /\
    ticks s2 = S (S (ticks s1)).
Proof.
  intros Hp Hr Hproc Hn row df p'.
  assert (process_l <> report_l) as Hne by congruence.
  unfold open_session.
  unfold bind at 1. rewrite (prepare_to_monitor_run E _ _ _ _ Hp).
  cbv beta iota.
  change (Process.mk (Process.name p) (Some (now s1))
            (Some (now s1 + duration a)) (Some (duration a))) with p'.
  set (sp := store process_l (OProcess p') (tick E s1)).
  assert (heap sp !! report_l = Some (OReport r)) as Hr'
    by (subst sp; cbn; now rewrite lookup_insert_ne).
  assert (heap sp !! Report.process r = Some (OProcess p')) as Hp'
    by (subst sp; cbn; rewrite Hproc; apply lookup_insert_eq).
  rewrite (report_start_run E _ _ _ _ (now s1) (now s1 + duration a) n Hr' Hp'
             eq_refl eq_refl Hn).
  eexists. split; [reflexivity|]. cbn.
  rewrite lookup_insert_ne by congruence.
  rewrite !lookup_insert_eq. repeat split; reflexivity.
Qed.

(** A progress line, then the close of the session, then the kill: the
    tail shared by both paths of [main]. *)
Lemma close_and_terminate E msg process_l report_l s r :
  heap s !! report_l = Some (OReport r) ->
  let t := now s + latency E (ticks s) in
  let df := update_actual_end_time (Report.report_df r)
              (_get_last_index (Report.report_df r)) (time_of t) in
  exists sc s3,
    (print E msg;; report_termination E report_l;; terminate E process_l) s
    = (terminate_result E sc, s3) /\
    trace s3 = trace s ++ [Print msg; ToCsv (Report.report_file_name r) df]
                 ++ terminate_events E sc /\
    fs s3 !! Report.report_file_name r = Some df /\
    trace sc = trace s ++ [Print msg; ToCsv (Report.report_file_name r) df].
Proof.
  intros Hr t df.
  set (s1 := tick E (emit (Print msg) s)).
  assert (heap s1 !! report_l = Some (OReport r)) as Hr1 by exact Hr.
  pose proof (report_termination_run E report_l s1 r Hr1) as Hclose.
  cbv zeta in Hclose.
  match type of Hclose with _ = (_, ?s2) => set (sc := s2) in * end.
  destruct (terminate_run E process_l sc) as (s3 & Hterm & Htrace & _ & Hfs).
  exists sc, s3.
  split.
  { unfold bind at 1. unfold print at 1. cbv beta iota. fold s1.
    unfold bind at 1. rewrite Hclose. exact Hterm. }
  split.
  { rewrite Htrace. subst sc s1. cbn. now rewrite <- !app_assoc. }
  split.
  { rewrite Hfs. subst sc. cbn. apply lookup_insert_eq. }
  subst sc s1. cbn. now rewrite <- !app_assoc.
Qed.

Lemma monitoring_run E fuel process_l s p d :
  heap s !! process_l = Some (OProcess p) ->
  Process.duration p = Some d ->
  let s1 := tick E (emit (Print (WillBeTerminated (d / 60) (Process.end_time p)))
              (tick E (emit (Print (StartingAt (Process.start_time p))) s))) in
  monitoring E fuel process_l s =
  monitor_loop E fuel process_l (interval d)
    (scan_state (process (args E)) (process_iter E (now s1)))
    (now (tick E s1)) (tick E (tick E s1)).
Proof.
  intros Hp Hd s1. unfold monitoring. mrun. rewrite Hp. mrun. rewrite Hp, Hd.
  mrun. fold s1. rewrite (monitor_run E fuel process_l s1 p d Hp Hd).
  reflexivity.
Qed.

(** ** The run after the process was seen *)

Lemma main_split E fuel a s0 s1 pl rl :
  awaiting_start E fuel a s0 = (Done (pl, rl), s1) ->
  let file := _get_report_file_name E (report_dir a) (process a) in
  let df0 := report_table E a s0 in
  let d0 := date_of (now s0) in
  exists n s2,
    _get_times_opened_today df0 d0 = Some n /\
    let row := Line.mk d0 (time_of (now s1)) (time_of (now s1 + duration a))
                 Line.unknown (Some (duration a)) n in
    let r2 := Report.mk d0 (report_dir a) pl file (df0 ++ [row]) n in
    let p2 := Process.mk (process a) (Some (now s1))
                (Some (now s1 + duration a)) (Some (duration a)) in
    open_session E a pl rl s1 = (Done tt, s2) /\
    heap s2 !! pl = Some (OProcess p2) /\
    heap s2 !! rl = Some (OReport r2) /\
    fs s2 !! file = Some (df0 ++ [row]) /\
    trace s2 = trace s1 ++ [ToCsv file (df0 ++ [row])] /\
    now s2 == now s1 + latency E (ticks s1) + latency E (S (ticks s1)) /\
    ticks s2 = S (S (ticks s1)) /\
    main E fuel a s0 =
      if (max_times_opened a <? n)%Z then over_limit E a pl rl r2 s2
      else (monitoring E fuel pl;; terminating E pl rl) s2.
Proof.
  intros Hstart file df0 d0.
  destruct (awaiting_start_done E fuel a s0 _ _ Hstart)
    as (n & Hn & Hres & Hheap & Hfs & _ & _).
  destruct Hres as [Hres|Hres]; [|discriminate].
  injection Hres as -> ->.
  set (p1 := Process.mk (process a) None None None).
  set (r1 := Report.mk (date_of (now s0)) (report_dir a) (next_loc s0) file
               df0 n).
  assert (heap s1 !! next_loc s0 = Some (OProcess p1)) as Hp.
  { rewrite Hheap, lookup_insert_ne by lia. apply lookup_insert_eq. }
  assert (heap s1 !! S (next_loc s0) = Some (OReport r1)) as Hr.
  { rewrite Hheap. apply lookup_insert_eq. }
  destruct (open_session_run E a _ _ s1 r1 p1 n Hp Hr eq_refl Hn)
    as (s2 & Hopen & Hp2 & Hr2 & Hfs2 & Htr & Hnow & Hticks).
  exists n, s2. split; [exact Hn|]. cbv zeta.
  repeat (split; [assumption|]).
  rewrite main_phases. unfold main_by_phases.
  unfold bind at 1. rewrite Hstart. cbn [fst snd].
  unfold bind at 1. rewrite Hopen.
  unfold bind at 1. unfold get_report. rewrite Hr2.
  cbn [Report.times_opened Report.set_report_df r1].
  destruct (max_times_opened a <? n)%Z; reflexivity.
Qed.

(** * The claims *)

(** What [report_start] and [report_termination] write is what
    [session_table] describes. *)
Lemma session_table_open df d st et dur n :
  _get_times_opened_today df d = Some n ->
  session_table df (mkSession d st et dur None)
  = df ++ [Line.mk d (time_of st) (time_of et) Line.unknown dur n].
Proof.
  intros Hn. unfold session_table, session_count. cbn [s_date s_closed_at].
  rewrite Hn, loc_set_append. reflexivity.
Qed.

Lemma session_table_closed df d st et dur n t :
  _get_times_opened_today df d = Some n ->
  session_table df (mkSession d st et dur (Some t))
  = df ++ [Line.mk d (time_of st) (time_of et) (Line.iso (time_of t)) dur n].
Proof.
  intros Hn. unfold session_table, session_count. cbn [s_date s_closed_at].
  rewrite Hn, loc_set_append, update_actual_end_time_snoc. reflexivity.
Qed.

Lemma interval_scale d : interval d == d * (1 # 100).
Proof. reflexivity. Qed.

Lemma interval_positive d : 0 < interval d <-> 0 < d.
Proof. rewrite interval_scale. split; intros H; lra. Qed.

(** C6, as the code has it.  The polling interval is the hundredth of the
    duration, unclamped: positive exactly when the duration is, and every
    sleep of the monitoring loop lasts exactly that long. *)
Theorem C6_interval_is_a_hundredth E fuel self s p d st et res s' :
  heap s !! self = Some (OProcess p) ->
  Process.duration p = Some d ->
  Process.start_time p = Some st ->
  Process.end_time p = Some et ->
  monitor E fuel self s = (res, s') ->
  interval d == d / 100 /\
  (0 < interval d <-> 0 < d) /\
  exists evs, trace s' = trace s ++ evs /\
              forall x, In (Sleep x) evs -> x = interval d.
Proof.
  intros Hself Hd Hst Het Hrun.
  split; [reflexivity|]. split.
  { apply interval_positive. }
  rewrite (monitor_run E fuel self s p d Hself Hd) in Hrun.
  apply (monitor_loop_frame E self (interval d) p st et Hst Het) in Hrun
    as (_ & _ & _ & evs & Htr & Hevs); [|exact Hself].
  exists evs. split; [exact Htr|].
  intros x Hin. rewrite List.Forall_forall in Hevs.
  destruct (Hevs _ Hin) as [Hp|Heq]; [discriminate | congruence].
Qed.

Lemma C6_witness :
  heap session_opened !! 0%nat
    = Some (OProcess (Process.mk "firefox" (Some 100) (Some 700) (Some 600))) /\
  exists evs,
    trace (snd (monitor firefox_env 3 0%nat session_opened))
      = trace session_opened ++ evs /\
    forall x, In (Sleep x) evs -> x = interval 600.
Proof.
  assert (heap session_opened !! 0%nat
          = Some (OProcess (Process.mk "firefox" (Some 100) (Some 700)
                              (Some 600)))) as Hself
    by (vm_compute; reflexivity).
  split; [exact Hself|].
  exact (proj2 (proj2
    (C6_interval_is_a_hundredth firefox_env 3 0%nat session_opened
       (Process.mk "firefox" (Some 100) (Some 700) (Some 600)) 600 100 700
       (fst (monitor firefox_env 3 0%nat session_opened))
       (snd (monitor firefox_env 3 0%nat session_opened))
       Hself eq_refl eq_refl eq_refl (surjective_pairing _)))).
Defined.

(** C6 as stated fails: no positive minimum bounds the interval from
    below; for a zero duration it is zero. *)
Lemma C6_counterexample :
  interval 0 == 0 /\
  ~ (exists minimum, 0 < minimum /\ forall d, minimum <= interval d).
Proof.
  split; [reflexivity|].
  intros (m & Hm & Hall). specialize (Hall 0).
  rewrite interval_scale in Hall. lra.
Qed.

(** C8. After [report_start] the last line of the stored table has the
    end time "unknown"; after [report_termination] the stored table is the
    same but for that cell of the last line, which now holds the time of
    day of the clock: the other five cells of the line and all the other
    lines are as before. *)
Theorem C8_ledger_round_trip E self s r p st et :
  heap s !! self = Some (OReport r) ->
  heap s !! Report.process r = Some (OProcess p) ->
  Process.start_time p = Some st ->
  Process.end_time p = Some et ->
  fs s !! Report.report_file_name r = Some (Report.report_df r) ->
  exists row s1,
    report_start E self s = (Done tt, s1) /\
    fst (read_csv E (Report.report_file_name r) s1)
      = Done (Report.report_df r ++ [row]) /\
    Line.actual_end_time row = Line.unknown /\
    forall s1', heap s1' !! self = heap s1 !! self ->
      exists row' s2,
        report_termination E self s1' = (Done tt, s2) /\
        fst (read_csv E (Report.report_file_name r) s2)
          = Done (Report.report_df r ++ [row']) /\
        Line.actual_end_time row' = Line.iso (time_of (now s1')) /\
        Line.date row' = Line.date row /\
        Line.start_time row' = Line.start_time row /\
        Line.expected_end_time row' = Line.expected_end_time row /\
        Line.duration row' = Line.duration row /\
        Line.times_opened_today row' = Line.times_opened_today row.
Proof.
  intros Hself Hproc Hst Het _.
  destruct (times_opened_today_total (Report.report_df r) (Report.date r))
    as [n Hn].
  pose proof (report_start_run E self s r p st et n Hself Hproc Hst Het Hn)
    as Hstart. cbv zeta in Hstart.
  set (row := Line.mk (Report.date r) (time_of st) (time_of et) Line.unknown
                (Process.duration p) n) in *.
  eexists row, _. split; [exact Hstart|].
  split.
  { unfold read_csv. cbn. now rewrite lookup_insert_eq. }
  split; [reflexivity|].
  intros s1' Hsame. cbn in Hsame. rewrite lookup_insert_eq in Hsame.
  pose proof (report_termination_run E self s1' _ Hsame) as Hstop.
  cbv zeta in Hstop. cbn [Report.set_report_df Report.report_df
                           Report.report_file_name] in Hstop.
  rewrite update_actual_end_time_snoc in Hstop.
  eexists (Line.set_actual_end_time (Line.iso (time_of (now s1'))) row), _.
  split; [exact Hstop|].
  split.
  { unfold read_csv. cbn. now rewrite lookup_insert_eq. }
  repeat split.
Qed.

Lemma C8_witness :
  fs session_opened !! firefox_file = Some [] /\
  exists row s1,
    report_start firefox_env 1%nat session_opened = (Done tt, s1) /\
    fst (read_csv firefox_env firefox_file s1) = Done ([] ++ [row]) /\
    Line.actual_end_time row = Line.unknown.
Proof.
  assert (fs session_opened !! firefox_file = Some []) as Hfile
    by (vm_compute; reflexivity).
  assert (heap session_opened !! 1%nat
          = Some (OReport (Report.mk 0 "/tmp" 0%nat firefox_file [] 1)))
    as Hself by (vm_compute; reflexivity).
  assert (heap session_opened !! 0%nat
          = Some (OProcess (Process.mk "firefox" (Some 100) (Some 700)
                              (Some 600)))) as Hproc
    by (vm_compute; reflexivity).
  split; [exact Hfile|].
  destruct (C8_ledger_round_trip firefox_env 1%nat session_opened
              (Report.mk 0 "/tmp" 0%nat firefox_file [] 1)
              (Process.mk "firefox" (Some 100) (Some 700) (Some 600)) 100 700
              Hself Hproc eq_refl eq_refl Hfile)
    as (row & s1 & Hstart & Hread & Hunknown & _).
  exists row, s1. repeat split; assumption.
Defined.

(** ** The path over the limit *)

Lemma date_of_comp a b : a == b -> date_of a = date_of b.
Proof. intros H. unfold date_of. apply Qfloor_comp. now rewrite H. Qed.

Lemma time_of_comp a b : a == b -> time_of a == time_of b.
Proof.
  intros H. unfold time_of. rewrite (date_of_comp a b H), H. reflexivity.
Qed.

Lemma terminate_events_quiet E s :
  List.filter is_progress (terminate_events E s) = [] /\
  List.filter is_sleep (terminate_events E s) = [].
Proof. unfold terminate_events. now destruct (platform E). Qed.

Lemma over_limit_run E fuel a s0 s1 pl rl n :
  awaiting_start E fuel a s0 = (Done (pl, rl), s1) ->
  _get_times_opened_today (report_table E a s0) (date_of (now s0)) = Some n ->
  (max_times_opened a < n)%Z ->
  let file := _get_report_file_name E (report_dir a) (process a) in
  let df0 := report_table E a s0 in
  let row := Line.mk (date_of (now s0)) (time_of (now s1))
               (time_of (now s1 + duration a)) Line.unknown
               (Some (duration a)) n in
  exists s2 sc s3,
    open_session E a pl rl s1 = (Done tt, s2) /\
    now s2 == now s1 + latency E (ticks s1) + latency E (S (ticks s1)) /\
    ticks s2 = S (S (ticks s1)) /\
    main E fuel a s0 = (terminate_result E sc, s3) /\
    let closed :=
      Line.set_actual_end_time
        (Line.iso (time_of (now s2 + latency E (ticks s2)))) row in
    trace s3 =
      trace s1 ++
      [ToCsv file (df0 ++ [row]);
       Print (TooManyTimes n (max_times_opened a));
       ToCsv file (df0 ++ [closed])] ++ terminate_events E sc /\
    fs s3 !! file = Some (df0 ++ [closed]).
Proof.
  intros Hstart Hn Hover file df0 row.
  destruct (main_split E fuel a s0 s1 pl rl Hstart)
    as (n' & s2 & Hn' & Hopen & Hp2 & Hr2 & Hfs2 & Htr & Hnow & Hticks & Hmain).
  assert (n' = n) as -> by congruence.
  replace (max_times_opened a <? n)%Z with true in Hmain
    by (symmetry; now apply Z.ltb_lt).
  destruct (close_and_terminate E
              (TooManyTimes n (max_times_opened a)) pl rl s2 _ Hr2)
    as (sc & s3 & Hrun & Htr3 & Hfs3 & _).
  cbn [Report.report_df Report.report_file_name Report.times_opened] in *.
  rewrite update_actual_end_time_snoc in Htr3, Hfs3.
  exists s2, sc, s3.
  split; [exact Hopen|]. split; [exact Hnow|]. split; [exact Hticks|].
  split; [rewrite Hmain; exact Hrun|]. cbv zeta.
  split; [|exact Hfs3].
  rewrite Htr3, Htr, <- app_assoc. reflexivity.
Qed.

(** C4. When the count exceeds the maximum, the run appends the session,
    prints the notice, closes the session with the clock of that moment and
    asks once for the end of the process, all in this invocation: nothing
    else happens after the process was seen, no sleep and no progress
    line. *)
Theorem C4_over_limit_fast_path E fuel a s0 s1 pl rl n :
  awaiting_start E fuel a s0 = (Done (pl, rl), s1) ->
  _get_times_opened_today (report_table E a s0) (date_of (now s0)) = Some n ->
  (max_times_opened a < n)%Z ->
  let file := _get_report_file_name E (report_dir a) (process a) in
  let df0 := report_table E a s0 in
  let row := Line.mk (date_of (now s0)) (time_of (now s1))
               (time_of (now s1 + duration a)) Line.unknown
               (Some (duration a)) n in
  exists s2 sc s3,
    open_session E a pl rl s1 = (Done tt, s2) /\
    main E fuel a s0 = (terminate_result E sc, s3) /\
    let closed :=
      Line.set_actual_end_time
        (Line.iso (time_of (now s2 + latency E (ticks s2)))) row in
    trace s3 =
      trace s1 ++
      [ToCsv file (df0 ++ [row]);
       Print (TooManyTimes n (max_times_opened a));
       ToCsv file (df0 ++ [closed])] ++ terminate_events E sc /\
    exists evs,
      trace s3 = trace s0 ++ evs /\
      List.filter is_progress evs = [] /\
      List.length (List.filter is_kill_request evs) = 1%nat.
Proof.
  intros Hstart Hn Hover file df0 row.
  destruct (over_limit_run E fuel a s0 s1 pl rl n Hstart Hn Hover)
    as (s2 & sc & s3 & Hopen & _ & _ & Hmain & Htr & _).
  exists s2, sc, s3. split; [exact Hopen|]. split; [exact Hmain|].
  cbv zeta in Htr |- *. split; [exact Htr|].
  destruct (awaiting_start_done E fuel a s0 _ _ Hstart)
    as (_ & _ & _ & _ & _ & _ & evs1 & Htr1 & Hk1 & Hp1).
  eexists. split.
  { rewrite Htr, Htr1, <- app_assoc. reflexivity. }
  rewrite !List.filter_app, Hk1, Hp1.
  destruct (terminate_events_quiet E sc) as [Hq _]. rewrite Hq.
  cbn. split; [reflexivity|]. apply terminate_one_request.
Qed.

Lemma C4_witness :
  (max_times_opened strict_args < 2)%Z /\
  exists s3 evs,
    main slow_env 0 strict_args (boot 1000 one_session_today) = (Done tt, s3) /\
    trace s3 = trace (boot 1000 one_session_today) ++ evs /\
    List.filter is_progress evs = [] /\
    List.length (List.filter is_kill_request evs) = 1%nat.
Proof.
  split; [reflexivity|].
  destruct (C4_over_limit_fast_path slow_env 0 strict_args
              (boot 1000 one_session_today)
              (snd (awaiting_start slow_env 0 strict_args
                      (boot 1000 one_session_today)))
              0%nat 1%nat 2%Z)
    as (s2 & sc & s3 & _ & Hmain & _ & evs & Htr & Hp & Hk).
  - vm_compute. reflexivity.
  - vm_compute. reflexivity.
  - reflexivity.
  - exists s3, evs. repeat split; assumption.
Defined.

(** C5, as the code has it.  On the (K+1)-th launch of a day the line of
    the session holds as start the time of day sampled by
    [prepare_to_monitor], as expected end that instant plus the duration,
    and as actual end the time of day of a second sample of the clock,
    taken by [report_termination] three steps later with no sleep in
    between.  The two samples are the same instant when those steps take
    no time. *)
Theorem C5_over_limit_record E fuel a s0 s1 pl rl K :
  awaiting_start E fuel a s0 = (Done (pl, rl), s1) ->
  max_times_opened a = K ->
  _get_times_opened_today (report_table E a s0) (date_of (now s0))
    = Some (K + 1)%Z ->
  let file := _get_report_file_name E (report_dir a) (process a) in
  let k := ticks s1 in
  exists res s3 record closed_at,
    main E fuel a s0 = (res, s3) /\
    fs s3 !! file = Some (report_table E a s0 ++ [record]) /\
    Line.times_opened_today record = (K + 1)%Z /\
    Line.start_time record = time_of (now s1) /\
    Line.expected_end_time record = time_of (now s1 + duration a) /\
    Line.actual_end_time record = Line.iso (time_of closed_at) /\
    closed_at == now s1 + (latency E k + latency E (S k) + latency E (S (S k))) /\
    (latency E k + latency E (S k) + latency E (S (S k)) == 0 ->
     time_of closed_at == Line.start_time record).
Proof.
  intros Hstart HK Hn file k.
  destruct (over_limit_run E fuel a s0 s1 pl rl (K + 1)%Z Hstart Hn
              ltac:(lia))
    as (s2 & sc & s3 & _ & Hnow & Hticks & Hmain & _ & Hfs).
  cbv zeta in Hfs.
  eexists _, s3, _, (now s2 + latency E (ticks s2)).
  split; [exact Hmain|]. split; [exact Hfs|].
  cbn [Line.set_actual_end_time Line.times_opened_today Line.start_time
       Line.expected_end_time Line.actual_end_time].
  repeat (split; [reflexivity|]).
  assert (now s2 + latency E (ticks s2)
          == now s1 + (latency E k + latency E (S k) + latency E (S (S k))))
    as Hclosed by (rewrite Hticks, Hnow; subst k; ring).
  split; [exact Hclosed|].
  intros Hzero. apply time_of_comp. rewrite Hclosed, Hzero. ring.
Qed.

Lemma C5_witness :
  max_times_opened strict_args = 1%Z /\
  exists res s3 record closed_at,
    main slow_env 0 strict_args (boot 1000 one_session_today) = (res, s3) /\
    fs s3 !! firefox_file
      = Some (report_table slow_env strict_args (boot 1000 one_session_today)
              ++ [record]) /\
    Line.times_opened_today record = 2%Z /\
    Line.actual_end_time record = Line.iso (time_of closed_at).
Proof.
  split; [reflexivity|].
  destruct (C5_over_limit_record slow_env 0 strict_args
              (boot 1000 one_session_today)
              (snd (awaiting_start slow_env 0 strict_args
                      (boot 1000 one_session_today)))
              0%nat 1%nat 1%Z)
    as (res & s3 & record & closed_at & Hmain & Hfs & Hn & _ & _ & Hend & _).
  - vm_compute. reflexivity.
  - reflexivity.
  - vm_compute. reflexivity.
  - exists res, s3, record, closed_at. repeat split; assumption.
Defined.

(** C5 as stated fails.  With one launch allowed and one session already
    recorded today, on a machine whose steps take a millisecond, the line
    written for the second launch has three different times: the start, the
    expected end ten minutes later and the actual end three milliseconds
    after the start. *)
Lemma C5_counterexample :
  exists record closed_at,
    max_times_opened strict_args = 1%Z /\
    last <$> fs (snd (main slow_env 0 strict_args
                        (boot 1000 one_session_today))) !! firefox_file
      = Some (Some record) /\
    Line.times_opened_today record = 2%Z /\
    Line.actual_end_time record = Line.iso closed_at /\
    ~ Line.start_time record == closed_at /\
    ~ Line.start_time record == Line.expected_end_time record.
Proof.
  eexists _, _. split; [reflexivity|].
  split; [vm_compute; reflexivity|].
  split; [reflexivity|]. split; [reflexivity|].
  split; intros H; vm_compute in H; discriminate.
Qed.

(** ** Termination of a process that is gone *)

Lemma vanished_pid E s :
  vanished E s -> scan_pid (process (args E)) (process_iter E (now s)) = (-1)%Z.
Proof.
  unfold vanished. intros Hoff. apply scan_pid_none.
  now apply scan_state_Off.
Qed.

(** C2.  The code does not do what the claim says.  When no process
    bears the name by the time [terminate] is called, [get_pid] answers its
    not-found value -1 and [terminate] hands that value to the operating
    system as if it were a pid: [os.kill(-1, SIGKILL)], or on win32
    [OpenProcess] for pid -1 followed by [TerminateProcess] and
    [CloseHandle] on what it answered.  [terminate] itself raises nothing
    for the missing process and prints nothing; what it returns is what
    the operating system made of the request. *)
Theorem C2_terminate_when_process_is_gone E self s :
  vanished E s ->
  exists s',
    fst (get_pid E self s) = Done (-1)%Z /\
    terminate E self s = (terminate_result E s, s') /\
    trace s' =
      trace s ++
      match platform E with
      | win32 =>
          [WinOpenProcess (-1);
           WinTerminateProcess (OpenProcess E (-1) (now (tick E s)));
           WinCloseHandle (OpenProcess E (-1) (now (tick E s)))]
      | posix => [Kill (-1)]
      end /\
    terminate_result E s =
      match platform E with
      | win32 => Done tt
      | posix =>
          match os_kill E (-1)%Z (now (tick E s)) with
          | None => Done tt
          | Some e => Raise e
          end
      end.
Proof.
  intros Hgone.
  destruct (terminate_run E self s) as (s' & Hrun & Htr & _ & _).
  pose proof (vanished_pid E s Hgone) as Hpid.
  exists s'. split; [rewrite get_pid_run; cbn [fst]; now rewrite Hpid|].
  split; [exact Hrun|]. split.
  - rewrite Htr. unfold terminate_events. now rewrite Hpid.
  - unfold terminate_result. now rewrite Hpid.
Qed.

(** The failing input: elsewhere than on win32, the process leaves after
    five seconds of a ten-second window.  The watchdog notices, closes the
    session and calls [terminate]: the one request of the whole run is
    [os.kill(-1, SIGKILL)], nothing is printed after the notice of the
    close, and the run ends normally. *)
Lemma C2_witness :
  let run := main leaving_env 100 patient_args (boot 0 ∅) in
  vanished leaving_env (boot 5 ∅) /\
  (exists s',
     terminate leaving_env 0%nat (boot 5 ∅) = (Done tt, s') /\
     trace s' = [Kill (-1)]) /\
  fst run = Done tt /\
  List.filter is_kill_request (trace (snd run)) = [Kill (-1)] /\
  last (List.filter is_print (trace (snd run))) = Some (Print DurationPassed).
Proof.
  intros run.
  assert (vanished leaving_env (boot 5 ∅)) as Hgone by reflexivity.
  split; [exact Hgone|].
  destruct (C2_terminate_when_process_is_gone leaving_env 0%nat (boot 5 ∅)
              Hgone)
    as (s' & _ & Hrun & Htr & _).
  split.
  { exists s'. split; [exact Hrun | exact Htr]. }
  split; [vm_compute; reflexivity|].
  split; vm_compute; reflexivity.
Defined.

(** ** The path within the limit *)

Lemma within_limit_run E fuel pl rl s2 p d st et r :
  heap s2 !! pl = Some (OProcess p) ->
  heap s2 !! rl = Some (OReport r) ->
  Process.duration p = Some d ->
  Process.start_time p = Some st ->
  Process.end_time p = Some et ->
  exists resm sm evs,
    monitoring E fuel pl s2 = (resm, sm) /\
    heap sm = heap s2 /\ fs sm = fs s2 /\
    trace sm = trace s2 ++
               [Print (StartingAt (Process.start_time p));
                Print (WillBeTerminated (d / 60) (Process.end_time p))] ++ evs /\
    Forall (monitor_event (interval d)) evs /\
    (monotone E -> st <= now s2 ->
     resm <> Raise ZeroDivisionError /\ now s2 <= now sm) /\
    (monitoring E fuel pl;; terminating E pl rl) s2 =
      match resm with
      | Done _ => terminating E pl rl sm
      | Raise e => (Raise e, sm)
      | OutOfFuel => (OutOfFuel, sm)
      end.
Proof.
  intros Hp Hr Hd Hst Het.
  pose proof (monitoring_run E fuel pl s2 p d Hp Hd) as Hmon. cbv zeta in Hmon.
  fold (monitoring_entry E p d s2) in Hmon.
  set (se := monitoring_entry E p d s2) in *.
  destruct (monitor_loop E fuel pl (interval d)
              (scan_state (process (args E)) (process_iter E (now se)))
              (now (tick E se)) (tick E (tick E se))) as [resm sm] eqn:Hloop.
  assert (heap (tick E (tick E se)) !! pl = Some (OProcess p)) as Hp' by exact Hp.
  destruct (monitor_loop_frame E pl (interval d) p st et Hst Het fuel _ _ _ _ _
              Hp' Hloop) as (Hh & Hf & _ & evs & Htr & Hevs).
  exists resm, sm, evs.
  split; [exact Hmon|]. split; [exact Hh|]. split; [exact Hf|].
  split. { rewrite Htr. subst se. cbn. now rewrite <- !app_assoc. }
  split; [exact Hevs|]. split.
  - intros Hm Hle.
    pose proof (Hm (ticks s2)) as L0. pose proof (Hm (S (ticks s2))) as L1.
    pose proof (Hm (S (S (ticks s2)))) as L2.
    pose proof (Hm (S (S (S (ticks s2))))) as L3.
    assert (now se == now s2 + latency E (ticks s2) + latency E (S (ticks s2)))
      as Hse by reflexivity.
    assert (now (tick E se) == now se + latency E (S (S (ticks s2))))
      as Hse1 by reflexivity.
    assert (now (tick E (tick E se))
            == now (tick E se) + latency E (S (S (S (ticks s2)))))
      as Hse2 by reflexivity.
    assert (st <= now (tick E se)) as Hc by lra.
    assert (st <= now (tick E (tick E se))) as Hn by lra.
    destruct (monitor_loop_safe E pl (interval d) p st et Hst Het fuel _ _ _ _ _
                Hm Hp' Hc Hn Hloop)
      as [Hsafe Hclock].
    split; [exact Hsafe|]. lra.
  - unfold bind at 1. rewrite Hmon. now destruct resm.
Qed.

(** Whatever way the run ends once the session is open, the file holds
    the table of the start followed by the one line of this session, its
    end time still unknown or filled in. *)
Lemma main_store E fuel a s0 s1 pl rl res s3 :
  awaiting_start E fuel a s0 = (Done (pl, rl), s1) ->
  main E fuel a s0 = (res, s3) ->
  let file := _get_report_file_name E (report_dir a) (process a) in
  exists n closed_at,
    _get_times_opened_today (report_table E a s0) (date_of (now s0)) = Some n /\
    fs s3 !! file =
      Some (report_table E a s0 ++
            [Line.mk (date_of (now s0)) (time_of (now s1))
               (time_of (now s1 + duration a)) (cell_of closed_at)
               (Some (duration a)) n]).
Proof.
  intros Hstart Hmain file.
  destruct (main_split E fuel a s0 s1 pl rl Hstart)
    as (n & s2 & Hn & Hopen & Hp2 & Hr2 & Hfs2 & Htr & Hnow & Hticks & Hsplit).
  exists n. rewrite Hsplit in Hmain. clear Hsplit.
  destruct (max_times_opened a <? n)%Z.
  - destruct (close_and_terminate E
                (TooManyTimes n (max_times_opened a)) pl rl s2 _ Hr2)
      as (sc & s3' & Hrun & _ & Hfs3 & _).
    unfold over_limit in Hmain.
    cbn [Report.times_opened Report.report_df Report.report_file_name] in *.
    rewrite Hrun in Hmain. injection Hmain as _ <-.
    rewrite update_actual_end_time_snoc in Hfs3.
    exists (Some (now s2 + latency E (ticks s2))).
    split; [exact Hn | exact Hfs3].
  - destruct (within_limit_run E fuel pl rl s2 _ _ _ _ _ Hp2 Hr2
                eq_refl eq_refl eq_refl)
      as (resm & sm & evs & _ & Hh & Hf & _ & _ & _ & Hseq).
    rewrite Hseq in Hmain.
    assert (heap sm !! rl = heap s2 !! rl) as Hrsm by now rewrite Hh.
    rewrite Hr2 in Hrsm.
    destruct resm.
    + destruct (close_and_terminate E DurationPassed pl rl sm _ Hrsm)
        as (sc & s3' & Hrun & _ & Hfs3 & _).
      unfold terminating in Hmain.
      cbn [Report.report_df Report.report_file_name] in *.
      rewrite Hrun in Hmain. injection Hmain as _ <-.
      rewrite update_actual_end_time_snoc in Hfs3.
      exists (Some (now sm + latency E (ticks sm))).
      split; [exact Hn | exact Hfs3].
    + injection Hmain as _ <-. exists None. rewrite Hf. now split.
    + injection Hmain as _ <-. exists None. rewrite Hf. now split.
Qed.

(** So a run of [main] does to the file what [session_table] does to a
    table, for a session of the startup day. *)
Lemma main_writes_a_session E fuel a s0 s1 pl rl res s3 :
  awaiting_start E fuel a s0 = (Done (pl, rl), s1) ->
  main E fuel a s0 = (res, s3) ->
  exists x,
    s_date x = date_of (now s0) /\
    fs s3 !! _get_report_file_name E (report_dir a) (process a)
      = Some (session_table (report_table E a s0) x).
Proof.
  intros Hstart Hmain.
  destruct (main_store E fuel a s0 s1 pl rl res s3 Hstart Hmain)
    as (n & closed_at & Hn & Hfs).
  exists (mkSession (date_of (now s0)) (now s1) (now s1 + duration a)
            (Some (duration a)) closed_at).
  split; [reflexivity|]. rewrite Hfs. f_equal.
  destruct closed_at as [t|]; symmetry.
  - now apply session_table_closed.
  - now apply session_table_open.
Qed.

(** ** The launch count, run after run *)

Lemma today_df_length_days df d :
  List.length (today_df df d)
  = List.length (List.filter (Z.eqb d) (List.map Line.date df)).
Proof.
  unfold today_df. induction df as [|r df IH]; [reflexivity|].
  cbn [List.filter List.map]. rewrite (Z.eqb_sym d).
  destruct (Line.date r =? d)%Z; cbn [List.length]; now rewrite IH.
Qed.

(** The table that runs of [main] have written is counted, its lines bear
    the startup days of the runs in order, and the count of each line is
    one plus the number of earlier runs started on the day it bears. *)
Lemma written_by_runs_counted file days df :
  written_by_runs file days df ->
  List.map Line.date df = days /\
  counted df /\
  forall i row, df !! i = Some row ->
    Line.times_opened_today row
    = (Z.of_nat (List.length
                   (List.filter (Z.eqb (Line.date row)) (take i days))) + 1)%Z.
Proof.
  induction 1 as [ | days df E fuel a s0 s1 pl rl _ IH Hfile Htable Hstart
                   | days df E fuel a s0 s1 _ IH Hfile Htable Hstart ].
  - split; [reflexivity|]. split; [intros d; reflexivity|].
    intros i row Hi. rewrite lookup_nil in Hi. discriminate.
  - destruct IH as (Hdays & Hc & Hidx).
    destruct (main E fuel a s0) as [res s3] eqn:Hmain. cbn [snd].
    destruct (main_store E fuel a s0 s1 pl rl res s3 Hstart Hmain)
      as (n & closed_at & Hn & Hfs).
    rewrite Htable in Hn, Hfs.
    set (d0 := date_of (now s0)) in *.
    set (row0 := Line.mk d0 (time_of (now s1)) (time_of (now s1 + duration a))
                   (cell_of closed_at) (Some (duration a)) n) in *.
    assert (report_table E a s3 = df ++ [row0]) as ->
      by (unfold report_table; rewrite Hfs; reflexivity).
    assert (counted (df ++ [row0])) as Hc'.
    { pose proof (counted_session df
                    (mkSession d0 (now s1) (now s1 + duration a)
                       (Some (duration a)) closed_at) Hc) as Hcs.
      destruct closed_at as [t|].
      - now rewrite (session_table_closed df d0 _ _ _ n t Hn) in Hcs.
      - now rewrite (session_table_open df d0 _ _ _ n Hn) in Hcs. }
    rewrite (counted_count _ _ Hc) in Hn. injection Hn as Hn.
    assert (List.length days = List.length df) as Hlen
      by (rewrite <- Hdays; apply List.length_map).
    split; [rewrite List.map_app, Hdays; reflexivity|].
    split; [exact Hc'|].
    intros i row Hi.
    destruct (lt_dec i (List.length df)) as [Hlt|Hge].
    + rewrite lookup_app_l in Hi by exact Hlt.
      rewrite take_app_le by lia. now apply Hidx.
    + rewrite lookup_app_r in Hi by lia.
      destruct (i - List.length df)%nat as [|k] eqn:Hk; [|discriminate].
      injection Hi as <-.
      rewrite take_app_length' by lia.
      subst row0. cbn [Line.times_opened_today Line.date].
      now rewrite <- Hn, today_df_length_days, Hdays.
  - destruct (awaiting_start_done E fuel a s0 _ _ Hstart)
      as (n & _ & _ & _ & Hfs & _).
    assert (main E fuel a s0 = (OutOfFuel, s1)) as ->.
    { rewrite main_phases. unfold main_by_phases. unfold bind at 1.
      now rewrite Hstart. }
    cbn [snd].
    assert (report_table E a s1 = df) as ->
      by (unfold report_table at 1; rewrite Hfs; exact Htable).
    exact IH.
Qed.

(** C1, as the code has it.  [_get_times_opened_today] answers 1 when no
    line of the table bears the day it is given, and otherwise the count of
    the last line of that day plus one.  The day it is given by [main] is
    the day at which the watchdog was started.  Consequently, on the table
    that runs of [main] have written one after the other, each line bears
    the startup day of its run and, as its count, one plus the number of
    earlier runs started on that day; and the next run will get, for the
    day at which it is started, one plus the number of runs started on that
    day so far: 1 on a day with no run yet, whatever the other days hold. *)
Theorem C1_count_opened_today (file : string) (days : list Z)
    (df : list Line.t) :
  (forall table d,
     today_df table d = [] -> _get_times_opened_today table d = Some 1%Z) /\
  (forall table d r,
     last (today_df table d) = Some r ->
     _get_times_opened_today table d
     = Some (Line.times_opened_today r + 1)%Z) /\
  (written_by_runs file days df ->
   List.map Line.date df = days /\
   (forall i row, df !! i = Some row ->
      Line.times_opened_today row
      = (Z.of_nat (List.length
                     (List.filter (Z.eqb (Line.date row)) (take i days)))
         + 1)%Z) /\
   (forall d,
      _get_times_opened_today df d
      = Some (Z.of_nat (List.length (List.filter (Z.eqb d) days)) + 1)%Z)).
Proof.
  split; [exact times_opened_today_fresh|].
  split; [exact times_opened_today_last|].
  intros Hruns.
  destruct (written_by_runs_counted file days df Hruns) as (Hdays & Hc & Hidx).
  split; [exact Hdays|]. split; [exact Hidx|].
  intros d. rewrite (counted_count _ _ Hc), today_df_length_days, Hdays.
  reflexivity.
Qed.

(** Two runs started on day 0, the process there each time: the lines
    count 1 and 2, and a third run of that day would get 3, a run of the
    next day 1. *)
Lemma C1_witness :
  let first := main firefox_env 100 firefox_args (boot 1000 ∅) in
  let second :=
    main firefox_env 100 firefox_args (boot 2000 (fs (snd first))) in
  let df := report_table firefox_env firefox_args (snd second) in
  written_by_runs firefox_file [0; 0]%Z df /\
  List.map Line.times_opened_today df = [1; 2]%Z /\
  _get_times_opened_today df 0 = Some 3%Z /\
  _get_times_opened_today df 1 = Some 1%Z.
Proof.
  intros first second df.
  assert (written_by_runs firefox_file
            ([] ++ [date_of (now (boot 1000 ∅))])
            (report_table firefox_env firefox_args (snd first))) as Hfirst.
  { apply (runs_seen firefox_file [] [] firefox_env 100 firefox_args
             (boot 1000 ∅)
             (snd (awaiting_start firefox_env 100 firefox_args (boot 1000 ∅)))
             0%nat 1%nat).
    - constructor.
    - vm_compute. reflexivity.
    - vm_compute. reflexivity.
    - vm_compute. reflexivity. }
  assert (written_by_runs firefox_file
            (([] ++ [date_of (now (boot 1000 ∅))])
             ++ [date_of (now (boot 2000 (fs (snd first))))]) df) as Hruns.
  { apply (runs_seen firefox_file ([] ++ [date_of (now (boot 1000 ∅))])
             (report_table firefox_env firefox_args (snd first))
             firefox_env 100 firefox_args (boot 2000 (fs (snd first)))
             (snd (awaiting_start firefox_env 100 firefox_args
                     (boot 2000 (fs (snd first))))) 0%nat 1%nat).
    - exact Hfirst.
    - vm_compute. reflexivity.
    - vm_compute. reflexivity.
    - vm_compute. reflexivity. }
  assert ((([] ++ [date_of (now (boot 1000 ∅))])
           ++ [date_of (now (boot 2000 (fs (snd first))))]) = [0; 0]%Z)
    as Hdays by (vm_compute; reflexivity).
  rewrite Hdays in Hruns. clear Hdays Hfirst.
  split; [exact Hruns|].
  destruct (C1_count_opened_today firefox_file [0; 0]%Z df)
    as (_ & _ & Hcount).
  destruct (Hcount Hruns) as (Hdates & Hlines & Hnext).
  split; [|split; [exact (Hnext 0%Z) | exact (Hnext 1%Z)]].
  clearbody df. clear first second Hruns Hcount Hnext.
  destruct df as [|r1 [|r2 [|r3 df]]]; try discriminate.
  injection Hdates as Hd1 Hd2.
  cbn [List.map].
  rewrite (Hlines 0%nat r1 eq_refl), (Hlines 1%nat r2 eq_refl), Hd1, Hd2.
  reflexivity.
Defined.

(** C1 as stated fails for the calendar day of the launch.  The watchdog
    is started one second before midnight of day 0, on a table that holds
    one line of day 0 and none of day 1; the process is launched five
    seconds after midnight, the first launch of day 1.  The line written
    bears day 0 and the count 2. *)
Lemma C1_counterexample :
  let s0 := boot 86399 one_session_today in
  let s1 := snd (awaiting_start night_env 100 night_args s0) in
  let run := main night_env 100 night_args s0 in
  today_df (report_table night_env night_args s0) 1 = [] /\
  fst (awaiting_start night_env 100 night_args s0) = Done (0%nat, 1%nat) /\
  date_of (now s1) = 1%Z /\
  fst run = Done tt /\
  exists row,
    last (report_table night_env night_args (snd run)) = Some row /\
    Line.date row = 0%Z /\
    Line.times_opened_today row = 2%Z /\
    Line.times_opened_today row <> 1%Z.
Proof.
  intros s0 s1 run.
  split; [vm_compute; reflexivity|].
  split; [vm_compute; reflexivity|].
  split; [vm_compute; reflexivity|].
  split; [vm_compute; reflexivity|].
  eexists. split; [vm_compute; reflexivity|].
  split; [reflexivity|]. split; [reflexivity | discriminate].
Qed.



(** ** Safety and timing of monitoring *)

Lemma percentage_unguarded t c w :
  fst (get_duration_percentage t t c w) = Raise ZeroDivisionError.
Proof.
  unfold get_duration_percentage.
  replace (Qeq_bool (t - t) 0) with true; [reflexivity|].
  symmetry. apply Qeq_bool_iff. ring.
Qed.

Lemma percentage_defined st et c w :
  st <= c -> Qlt_bool c et = true ->
  0 < et - st /\
  get_duration_percentage st et c w = (Done (percentage_of st et c), w).
Proof.
  intros Hc Hlt. apply Qlt_bool_iff in Hlt.
  split; [lra|]. unfold get_duration_percentage.
  destruct (Qeq_bool (et - st) 0) eqn:Hz; [|reflexivity].
  apply Qeq_bool_iff in Hz. lra.
Qed.

(** C10. [get_duration_percentage] divides without a guard and raises on
    an empty window; yet under a clock that never runs backwards no call
    made by the monitoring of [main] can raise: the loop body runs only
    for a sample before the end and at or after the start, so the window is
    not empty there, whatever the configured duration. *)
Theorem C10_percentage_never_divides_by_zero E fuel a s0 s1 pl rl :
  monotone E ->
  awaiting_start E fuel a s0 = (Done (pl, rl), s1) ->
  (forall t c w, fst (get_duration_percentage t t c w) = Raise ZeroDivisionError) /\
  (forall st et c w, st <= c -> Qlt_bool c et = true ->
     0 < et - st /\
     get_duration_percentage st et c w = (Done (percentage_of st et c), w)) /\
  exists s2,
    open_session E a pl rl s1 = (Done tt, s2) /\
    forall res sm,
      monitoring E fuel pl s2 = (res, sm) -> res <> Raise ZeroDivisionError.
Proof.
  intros Hm Hstart.
  split; [apply percentage_unguarded|]. split; [apply percentage_defined|].
  destruct (main_split E fuel a s0 s1 pl rl Hstart)
    as (n & s2 & _ & Hopen & Hp2 & Hr2 & _ & _ & Hnow & _ & _).
  exists s2. split; [exact Hopen|].
  intros res sm Hmon.
  destruct (within_limit_run E fuel pl rl s2 _ _ _ _ _ Hp2 Hr2
              eq_refl eq_refl eq_refl)
    as (resm & sm' & _ & Hmon' & _ & _ & _ & _ & Hsafe & _).
  rewrite Hmon in Hmon'. injection Hmon' as <- <-.
  apply Hsafe; [exact Hm|].
  pose proof (Hm (ticks s1)). pose proof (Hm (S (ticks s1))). lra.
Qed.

(** A zero duration on a machine whose steps take a millisecond. *)
Lemma C10_witness :
  let a := mkArgs "firefox" "/tmp" 0 3 in
  let E := mkEnv a posix (fun _ => 1 # 1000) (fun _ => [mkProc "firefox" 42])
             kill_succeeds no_handle in
  monotone E /\
  exists s2,
    open_session E a 0%nat 1%nat (snd (awaiting_start E 10 a (boot 0 ∅)))
      = (Done tt, s2) /\
    fst (monitoring E 10 0%nat s2) <> Raise ZeroDivisionError.
Proof.
  intros a E.
  assert (monotone E) as Hm by (intros k; cbn; lra).
  split; [exact Hm|].
  destruct (C10_percentage_never_divides_by_zero E 10 a (boot 0 ∅)
              (snd (awaiting_start E 10 a (boot 0 ∅))) 0%nat 1%nat Hm)
    as (_ & _ & s2 & Hopen & Hsafe).
  - vm_compute. reflexivity.
  - exists s2. split; [exact Hopen|].
    apply (Hsafe _ (snd (monitoring E 10 0%nat s2))). apply surjective_pairing.
Defined.

(** Without a monotone clock the guard is missed: a clock set back by two
    seconds right after the start was taken makes a zero window look open. *)
Lemma percentage_divides_by_zero_on_clock_jump :
  let a := mkArgs "firefox" "/tmp" 0 3 in
  let E := mkEnv a posix (fun k => if (k =? 9)%nat then - (2) else 0)
             (fun _ => [mkProc "firefox" 42]) kill_succeeds no_handle in
  fst (main E 10 a (boot 100 ∅)) = Raise ZeroDivisionError.
Proof. vm_compute. reflexivity. Qed.

Lemma monitor_events_no_kill i evs :
  Forall (monitor_event i) evs -> List.filter is_kill_request evs = [].
Proof.
  induction 1 as [|e evs He _ IH]; [reflexivity|]. cbn.
  destruct He as [He| ->]; [|exact IH].
  destruct e as [m| | | | | |]; try discriminate. exact IH.
Qed.

Lemma fuel_covers_window (fuel : nat) (d : Q) :
  (100 <= fuel)%nat -> 0 < d ->
  d <= inject_Z (Z.of_nat fuel) * interval d.
Proof.
  intros Hfuel Hd.
  assert (inject_Z 100 <= inject_Z (Z.of_nat fuel)) as Hq
    by (rewrite <- Zle_Qle; lia).
  change (inject_Z 100) with 100 in Hq.
  rewrite interval_scale. nra.
Qed.




(** ** The run returns *)

Lemma awaiting_start_ends E fuel a s0 t0 :
  monotone E ->
  running_from E t0 ->
  t0 <= now s0 + inject_Z (Z.of_nat fuel) * (1 # 10) ->
  exists s1,
    awaiting_start E fuel a s0 = (Done (next_loc s0, S (next_loc s0)), s1).
Proof.
  intros Hm Hrun Hfuel.
  unfold awaiting_start, Process_init. mrun.
  set (obj := OProcess (Process.mk (process a) None None None)).
  set (sa := bump (store (next_loc s0) obj s0)).
  assert (heap sa !! next_loc s0 = Some obj) as Hobj
    by (subst sa; cbn; apply lookup_insert_eq).
  destruct (Report_init_run E (next_loc s0) (report_dir a) sa _ Hobj)
    as (n & sb & _ & Hinit & _ & _ & _ & Hclock & _).
  rewrite Hinit. mrun. specialize (Hclock Hm).
  destruct (scan_state _ _); cbn [Process.State_eqb]; mrun.
  - eexists. reflexivity.
  - match goal with
    | |- context [wait_until_started E fuel ?l ?s] =>
        destruct (wait_until_started_ends E fuel l t0 s Hm Hrun) as [sw Hw]
    end.
    + cbn. pose proof (Hm (ticks sb)). pose proof (Hm (S (ticks sb))).
      pose proof (Hm (S (S (ticks sb)))). pose proof (Hm (S (S (S (ticks sb))))).
      change (now sa) with (now s0) in Hclock. lra.
    + rewrite Hw. eexists. reflexivity.
Qed.

Lemma monitor_loop_past_end E fuel self i state c s p st et :
  heap s !! self = Some (OProcess p) ->
  Process.start_time p = Some st ->
  Process.end_time p = Some et ->
  et <= c ->
  monitor_loop E fuel self i state c s = (Done tt, s).
Proof.
  intros Hself Hst Het Hle.
  rewrite (monitor_loop_eq _ _ _ _ _ _ _ _ _ _ Hself Hst Het).
  replace (Qlt_bool c et) with false by (symmetry; now apply Qlt_bool_false).
  now rewrite andb_false_r.
Qed.

(** Once the process is there for good, a run with enough fuel for the
    wait and a hundred rounds of monitoring returns what [terminate]
    returns, whatever the duration and the latencies of a monotone clock. *)
Lemma main_returns E fuel a s0 t0 :
  monotone E ->
  running_from E t0 ->
  t0 <= now s0 + inject_Z (Z.of_nat fuel) * (1 # 10) ->
  (100 <= fuel)%nat ->
  exists sc s4, main E fuel a s0 = (terminate_result E sc, s4).
Proof.
  intros Hm Hrun Hwait Hfuel.
  destruct (awaiting_start_ends E fuel a s0 t0 Hm Hrun Hwait) as [s1 Hstart].
  destruct (main_split E fuel a s0 s1 _ _ Hstart)
    as (n & s2 & Hn & Hopen & Hp2 & Hr2 & _ & _ & Hnow & Hticks & Hmain).
  rewrite Hmain. clear Hmain.
  destruct (max_times_opened a <? n)%Z.
  - destruct (close_and_terminate E
                (TooManyTimes n (max_times_opened a)) (next_loc s0)
                (S (next_loc s0)) s2 _ Hr2) as (sc & s4 & Hrun4 & _).
    exists sc, s4. exact Hrun4.
  - destruct (within_limit_run E fuel (next_loc s0) (S (next_loc s0)) s2
                _ _ _ _ _ Hp2 Hr2 eq_refl eq_refl eq_refl)
      as (resm & sm & evs & Hmon & Hh & _ & _ & _ & _ & Hseq).
    rewrite Hseq.
    assert (resm = Done tt) as ->.
    { pose proof (monitoring_run E fuel (next_loc s0) s2 _ _ Hp2 eq_refl)
        as Hmon'. cbv zeta in Hmon'. rewrite Hmon in Hmon'.
      cbn [Process.start_time Process.end_time] in Hmon'.
      set (se := tick E (emit _ (tick E (emit _ s2)))) in Hmon'.
      pose proof (Hm (ticks s1)) as K0. pose proof (Hm (S (ticks s1))) as K1.
      pose proof (Hm (ticks s2)) as L0. pose proof (Hm (S (ticks s2))) as L1.
      pose proof (Hm (S (S (ticks s2)))) as L2.
      pose proof (Hm (S (S (S (ticks s2))))) as L3.
      assert (now se == now s2 + latency E (ticks s2) + latency E (S (ticks s2)))
        as Hse by reflexivity.
      assert (now (tick E se) == now se + latency E (S (S (ticks s2))))
        as Hse1 by reflexivity.
      assert (now (tick E (tick E se))
              == now (tick E se) + latency E (S (S (S (ticks s2)))))
        as Hse2 by reflexivity.
      destruct (Qlt_le_dec 0 (duration a)) as [Hd|Hd].
      - pose proof (proj2 (interval_positive _) Hd) as Hi.
        pose proof (fuel_covers_window fuel _ Hfuel Hd) as Hcover.
        destruct (monitor_loop_ends E (next_loc s0) (interval (duration a))
                    (Process.mk (process a) (Some (now s1))
                       (Some (now s1 + duration a)) (Some (duration a)))
                    (now s1) (now s1 + duration a) eq_refl eq_refl fuel
                    (scan_state (process (args E)) (process_iter E (now se)))
                    (now (tick E se)) (tick E (tick E se)) Hm Hp2)
          as [sm' Hloop]; try lra.
        rewrite Hloop in Hmon'. now injection Hmon' as ->.
      - erewrite monitor_loop_past_end in Hmon';
          [ | exact Hp2 | reflexivity | reflexivity | lra ].
        now injection Hmon' as ->. }
    pose proof Hr2 as Hrsm. rewrite <- Hh in Hrsm.
    destruct (close_and_terminate E DurationPassed (next_loc s0)
                (S (next_loc s0)) sm _ Hrsm) as (sc & s4 & Hrun4 & _).
    exists sc, s4. exact Hrun4.
Qed.


(** * Further properties of the code *)

(** ** The probe and the kill *)

Lemma scan_pid_found wanted it :
  scan_state wanted it = Process.On ->
  exists p, In p it /\ proc_name p = wanted /\ scan_pid wanted it = pid p.
Proof.
  induction it as [|q it IH]; cbn; [discriminate|].
  destruct (String.eqb_spec (proc_name q) wanted) as [Heq|_].
  - intros _. exists q. repeat split; [now left | exact Heq].
  - intros Hon. destruct (IH Hon) as (p & Hin & Hp & Hpid).
    exists p. repeat split; [now right | exact Hp | exact Hpid].
Qed.

(** X1. On one and the same process table [get_state] and [get_pid]
    agree: when no pid of the table is negative, the state is [On] exactly
    when the pid found is not the sentinel -1, and the pid found is then
    the pid of a process of the table bearing the wanted name. *)
Theorem X1_probes_agree E self s :
  (forall p, In p (process_iter E (now s)) -> (0 <= pid p)%Z) ->
  exists pid_found state,
    fst (get_pid E self s) = Done pid_found /\
    fst (get_state E self s) = Done state /\
    (state = Process.On <-> pid_found <> (-1)%Z) /\
    (state = Process.On ->
     exists p, In p (process_iter E (now s)) /\
               proc_name p = process (args E) /\ pid p = pid_found).
Proof.
  intros Hpids. rewrite get_pid_run, get_state_run. cbn [fst].
  eexists _, _. split; [reflexivity|]. split; [reflexivity|].
  split; [split|].
  - intros Hon. destruct (scan_pid_found _ _ Hon) as (p & Hin & _ & ->).
    specialize (Hpids p Hin). lia.
  - intros Hpid.
    destruct (scan_state (process (args E)) (process_iter E (now s))) eqn:Hs;
      [reflexivity|].
    exfalso. apply Hpid, scan_pid_none. now apply scan_state_Off.
  - intros Hon. destruct (scan_pid_found _ _ Hon) as (p & Hin & Hp & ->).
    now exists p.
Qed.

Lemma X1_witness :
  (forall p, In p (process_iter firefox_env (now (boot 0 ∅))) -> (0 <= pid p)%Z) /\
  exists pid_found state,
    fst (get_pid firefox_env 0%nat (boot 0 ∅)) = Done pid_found /\
    fst (get_state firefox_env 0%nat (boot 0 ∅)) = Done state /\
    (state = Process.On <-> pid_found <> (-1)%Z).
Proof.
  assert (forall p, In p (process_iter firefox_env (now (boot 0 ∅))) ->
                    (0 <= pid p)%Z) as Hpids.
  { intros p [<-|[]]. cbn. lia. }
  split; [exact Hpids|].
  destruct (X1_probes_agree firefox_env 0%nat (boot 0 ∅) Hpids)
    as (pid_found & state & Hpid & Hstate & Hiff & _).
  now exists pid_found, state.
Defined.



(** ** The name of the report file *)





(** ** The report: construction, closing, misuse *)

Lemma Report_init_files E process dir s p :
  heap s !! process = Some (OProcess p) ->
  let file := _get_report_file_name E dir (Process.name p) in
  let df := default [] (fs s !! file) in
  exists n s',
    _get_times_opened_today df (date_of (now s)) = Some n /\
    Report_init E process dir s = (Done (next_loc s), s') /\
    heap s' = <[next_loc s :=
                 OReport (Report.mk (date_of (now s)) dir process file df n)]>
                (heap s) /\
    fs s' = match fs s !! file with
            | Some _ => fs s
            | None => <[file := []]> (fs s)
            end /\
    trace s' = trace s ++ match fs s !! file with
                          | Some _ => []
                          | None => [ToCsv file []]
                          end.
Proof.
  intros Hself file df.
  destruct (times_opened_today_total df (date_of (now s))) as [n Hn].
  exists n. unfold Report_init, _get_report_df, _create_new_report_csv.
  mrun. rewrite Hself. mrun. fold file. subst df.
  destruct (fs s !! file) as [rows|] eqn:Hfile; mrun.
  - rewrite Hfile. mrun.
    change (default [] (Some rows)) with rows in *. rewrite Hn. mrun.
    eexists. split; [reflexivity|]. split; [reflexivity|]. cbn.
    repeat split. now rewrite app_nil_r.
  - rewrite lookup_insert_eq. mrun.
    change (default [] None) with (@nil Line.t) in *. rewrite Hn. mrun.
    eexists. split; [reflexivity|]. split; [reflexivity|]. cbn.
    repeat split.
Qed.

(** X4. What constructing the report does to the store, whenever it
    returns.  When there was no file, one is created with an empty table
    and the launch count is 1; when there was one, it is read and not
    written, and the count is taken from its table.  Either way the report
    holds the table that the file holds, bears the day of the clock, and
    no other file is touched.  Whether the store lets the constructor
    return, with a directory to write into and a file that is a table, is
    not part of the statement. *)
Theorem X4_report_opens_or_creates_the_store E process dir s p l s' :
  heap s !! process = Some (OProcess p) ->
  Report_init E process dir s = (Done l, s') ->
  let file := _get_report_file_name E dir (Process.name p) in
  exists r,
    heap s' !! l = Some (OReport r) /\
    Report.report_file_name r = file /\
    Report.date r = date_of (now s) /\
    Report.process r = process /\
    fs s' !! file = Some (Report.report_df r) /\
    (forall f, f <> file -> fs s' !! f = fs s !! f) /\
    match fs s !! file with
    | None =>
        Report.report_df r = [] /\ Report.times_opened r = 1%Z /\
        trace s' = trace s ++ [ToCsv file []]
    | Some rows =>
        Report.report_df r = rows /\ fs s' = fs s /\ trace s' = trace s /\
        _get_times_opened_today rows (date_of (now s))
          = Some (Report.times_opened r)
    end.
Proof.
  intros Hself Hinit file.
  destruct (Report_init_files E process dir s p Hself)
    as (n & s'' & Hn & Hrun & Hheap & Hfs & Htr).
  rewrite Hinit in Hrun. injection Hrun as -> <-.
  fold file in Hn, Hheap, Hfs, Htr.
  eexists. split; [rewrite Hheap; apply lookup_insert_eq|].
  cbn [Report.report_file_name Report.date Report.process Report.report_df
       Report.times_opened].
  repeat (split; [reflexivity|]).
  destruct (fs s !! file) as [rows|] eqn:Hfile.
  - change (default [] (Some rows)) with rows in *.
    rewrite Hfs. split; [exact Hfile|]. split; [reflexivity|].
    rewrite app_nil_r in Htr. repeat split; assumption.
  - change (default [] None) with (@nil Line.t) in *.
    rewrite Hfs. split; [apply lookup_insert_eq|].
    split; [intros f Hf; now rewrite lookup_insert_ne|].
    repeat split; [|exact Htr]. cbn in Hn. congruence.
Qed.

Lemma X4_witness :
  let run := Report_init firefox_env 0%nat "/tmp" chrome_instance in
  fst run = Done 1%nat /\
  exists r,
    heap (snd run) !! 1%nat = Some (OReport r) /\
    Report.report_df r = [] /\ Report.times_opened r = 1%Z /\
    fs (snd run) !! chrome_file = Some [].
Proof.
  intros run.
  assert (heap chrome_instance !! 0%nat
          = Some (OProcess (Process.mk "chrome" None None None))) as Hself
    by (vm_compute; reflexivity).
  assert (run = (Done 1%nat, snd run)) as Hrun by (vm_compute; reflexivity).
  split; [now rewrite Hrun|].
  destruct (X4_report_opens_or_creates_the_store firefox_env 0%nat "/tmp"
              chrome_instance _ 1%nat (snd run) Hself Hrun)
    as (r & Hr & _ & _ & _ & Hfs & _ & Hcase).
  assert (fs chrome_instance !! _get_report_file_name firefox_env "/tmp" "chrome"
          = None) as Hnone by (vm_compute; reflexivity).
  assert (_get_report_file_name firefox_env "/tmp" "chrome" = chrome_file)
    as Hfile by (vm_compute; reflexivity).
  cbn [Process.name] in Hcase, Hfs. rewrite Hnone in Hcase.
  destruct Hcase as (Hdf & Hn & _).
  exists r. rewrite Hdf, Hfile in Hfs. repeat split; assumption.
Defined.

Lemma update_last_cell (df : list Line.t) (v : Q) :
  let df' := update_actual_end_time df (_get_last_index df) v in
  List.length df' = List.length df /\
  (forall i row, df !! i = Some row -> S i <> List.length df ->
                 df' !! i = Some row) /\
  (forall row, last df = Some row ->
               last df' = Some (Line.set_actual_end_time (Line.iso v) row)) /\
  (df = [] -> df' = []).
Proof.
  unfold update_actual_end_time, _get_last_index.
  destruct df as [|r0 df]; [cbn; repeat split; auto; discriminate|].
  set (l := r0 :: df).
  assert (List.length l = S (List.length df)) as Hlen by reflexivity.
  replace ((0 <=? Z.of_nat (List.length l) - 1)
           && (Z.of_nat (List.length l) - 1 <? Z.of_nat (List.length l)))%Z
    with true
    by (symmetry; apply andb_true_iff; split;
        [apply Z.leb_le | apply Z.ltb_lt]; lia).
  replace (Z.to_nat (Z.of_nat (List.length l) - 1)) with (List.length df)
    by lia.
  cbv zeta. split; [apply length_alter|]. split; [|split].
  - intros i row Hrow Hi. rewrite list_lookup_alter_ne by lia. exact Hrow.
  - intros row Hlast. rewrite last_lookup in Hlast |- *.
    rewrite length_alter, Hlen in *. cbn [pred] in *.
    now rewrite list_lookup_alter_eq, Hlast.
  - discriminate.
Qed.

(** X5. Closing changes one cell and nothing else, whatever table the
    report holds: the table keeps its length, every line but the last is
    kept as it is, the last line gets the time of day of the clock as its
    actual end and keeps its other cells (an end time already there is
    overwritten), and an empty table stays empty.  The file is rewritten
    with that table. *)
Theorem X5_close_changes_one_cell E self s r :
  heap s !! self = Some (OReport r) ->
  exists df' s',
    report_termination E self s = (Done tt, s') /\
    fs s' !! Report.report_file_name r = Some df' /\
    heap s' !! self = Some (OReport (Report.set_report_df df' r)) /\
    List.length df' = List.length (Report.report_df r) /\
    (forall i row, Report.report_df r !! i = Some row ->
                   S i <> List.length (Report.report_df r) ->
                   df' !! i = Some row) /\
    (forall row, last (Report.report_df r) = Some row ->
       last df'
       = Some (Line.set_actual_end_time (Line.iso (time_of (now s))) row)) /\
    (Report.report_df r = [] -> df' = []).
Proof.
  intros Hself.
  pose proof (report_termination_run E self s r Hself) as Hrun.
  cbv zeta in Hrun.
  eexists _, _. split; [exact Hrun|]. cbn.
  split; [apply lookup_insert_eq|]. split; [apply lookup_insert_eq|].
  apply update_last_cell.
Qed.

Lemma X5_witness :
  exists df' s',
    report_termination firefox_env 1%nat session_opened = (Done tt, s') /\
    fs s' !! firefox_file = Some df' /\
    df' = [].
Proof.
  assert (heap session_opened !! 1%nat
          = Some (OReport (Report.mk 0 "/tmp" 0%nat firefox_file [] 1)))
    as Hself by (vm_compute; reflexivity).
  destruct (X5_close_changes_one_cell firefox_env 1%nat session_opened _ Hself)
    as (df' & s' & Hrun & Hfs & _ & _ & _ & _ & Hempty).
  exists df', s'. split; [exact Hrun|]. split; [exact Hfs|].
  now apply Hempty.
Defined.

(** X6. Used before [prepare_to_monitor], on a process whose times are
    still [None], [report_start] and [monitor] raise [AttributeError] and
    have done nothing by then: no line is added, no file written, nothing
    printed, the clock not even read. *)
Theorem X6_methods_need_a_prepared_process E fuel self report s p r :
  heap s !! self = Some (OProcess p) ->
  heap s !! report = Some (OReport r) ->
  Report.process r = self ->
  Process.start_time p = None ->
  Process.duration p = None ->
  report_start E report s = (Raise AttributeError, s) /\
  monitor E fuel self s = (Raise AttributeError, s).
Proof.
  intros Hself Hreport Hproc Hstart Hduration. split.
  - destruct (times_opened_today_total (Report.report_df r) (Report.date r))
      as [n Hn].
    unfold report_start. mrun. rewrite Hreport. mrun. rewrite Hn. mrun.
    rewrite Hproc, Hself. mrun. now rewrite Hstart.
  - unfold monitor. mrun. rewrite Hself. mrun. now rewrite Hduration.
Qed.

Lemma X6_witness :
  let s := snd (awaiting_start firefox_env 0 firefox_args (boot 0 ∅)) in
  report_start firefox_env 1%nat s = (Raise AttributeError, s) /\
  monitor firefox_env 5 0%nat s = (Raise AttributeError, s).
Proof.
  intros s.
  apply (X6_methods_need_a_prepared_process firefox_env 5 0%nat 1%nat s
           (Process.mk "firefox" None None None)
           (Report.mk 0 "/tmp" 0%nat firefox_file [] 1));
    try reflexivity; vm_compute; reflexivity.
Defined.

(** ** Waiting *)





(** ** Progress lines *)





(** ** The percentage *)

Lemma round_half_even_cases q :
  round_half_even q = Qfloor q \/ round_half_even q = (Qfloor q + 1)%Z.
Proof.
  unfold round_half_even.
  destruct (Qle_bool _ _); [|now right].
  destruct (Qle_bool _ _); [|now left].
  destruct (Z.even _); [now left | now right].
Qed.


Lemma round_half_even_range q (N : Z) :
  0 <= q -> q < inject_Z N ->
  (0 <= round_half_even q <= N)%Z.
Proof.
  intros Hlo Hhi.
  assert (0 <= Qfloor q)%Z as Hf0
    by (change 0%Z with (Qfloor 0); now apply Qfloor_resp_le).
  assert (Qfloor q < N)%Z as HfN.
  { rewrite Zlt_Qlt. eapply Qle_lt_trans; [apply Qfloor_le | exact Hhi]. }
  destruct (round_half_even_cases q) as [-> | ->]; lia.
Qed.

Lemma round2_scale q :
  round2 q == inject_Z (round_half_even (q * 100)) * (1 # 100).
Proof. reflexivity. Qed.



(** ** What a run does to the store *)

(** X11. A run keeps the count column in order and counts attempts: if
    in the stored table the counts of each day read 1, 2, 3, ..., then
    however the run ends once the process was seen, over the limit or not,
    killed or not, they still do afterwards, the next run of the same
    startup day will get this run's count plus one, and the counts of the
    other days are what they were. *)
Theorem X11_run_keeps_the_counts_in_order E fuel a s0 s1 pl rl res s3 n :
  awaiting_start E fuel a s0 = (Done (pl, rl), s1) ->
  main E fuel a s0 = (res, s3) ->
  counted (report_table E a s0) ->
  _get_times_opened_today (report_table E a s0) (date_of (now s0)) = Some n ->
  exists df',
    fs s3 !! _get_report_file_name E (report_dir a) (process a) = Some df' /\
    counted df' /\
    _get_times_opened_today df' (date_of (now s0)) = Some (n + 1)%Z /\
    forall d, d <> date_of (now s0) ->
      _get_times_opened_today df' d
      = _get_times_opened_today (report_table E a s0) d.
Proof.
  intros Hstart Hmain Hcounted Hn.
  destruct (main_writes_a_session E fuel a s0 s1 pl rl res s3 Hstart Hmain)
    as (x & Hdate & Hfs).
  exists (session_table (report_table E a s0) x).
  split; [exact Hfs|].
  pose proof (counted_session _ x Hcounted) as Hcounted'.
  split; [exact Hcounted'|].
  rewrite (counted_count _ _ Hcounted) in Hn.
  split.
  - rewrite (counted_count _ _ Hcounted'), today_df_session_length
      by exact Hcounted.
    unfold same_day. rewrite Hdate, Z.eqb_refl.
    injection Hn as <-. f_equal. lia.
  - intros d Hd.
    rewrite (counted_count _ _ Hcounted'), (counted_count _ _ Hcounted),
      today_df_session_length by exact Hcounted.
    unfold same_day. rewrite Hdate.
    replace (date_of (now s0) =? d)%Z with false
      by (symmetry; apply Z.eqb_neq; congruence).
    now rewrite Nat.add_0_r.
Qed.

Lemma X11_witness :
  let s0 := boot 1000 one_session_today in
  counted (report_table slow_env strict_args s0) /\
  exists df',
    fs (snd (main slow_env 0 strict_args s0)) !! firefox_file = Some df' /\
    counted df' /\
    _get_times_opened_today df' 0 = Some 3%Z.
Proof.
  intros s0.
  assert (report_table slow_env strict_args s0
          = [Line.mk 0 10 610 (Line.iso 610) (Some 600) 1]) as Htable
    by (vm_compute; reflexivity).
  assert (counted (report_table slow_env strict_args s0)) as Hcounted.
  { rewrite Htable. intros d. unfold today_df. cbn [List.filter Line.date].
    destruct (0 =? d)%Z; reflexivity. }
  assert (awaiting_start slow_env 0 strict_args s0
          = (Done (0%nat, 1%nat), snd (awaiting_start slow_env 0 strict_args s0)))
    as Hstart by (vm_compute; reflexivity).
  assert (_get_times_opened_today (report_table slow_env strict_args s0)
            (date_of (now s0)) = Some 2%Z) as Hn
    by (rewrite Htable; vm_compute; reflexivity).
  split; [exact Hcounted|].
  destruct (X11_run_keeps_the_counts_in_order slow_env 0 strict_args s0
              (snd (awaiting_start slow_env 0 strict_args s0)) 0%nat 1%nat
              (fst (main slow_env 0 strict_args s0))
              (snd (main slow_env 0 strict_args s0)) 2%Z
              Hstart (surjective_pairing _) Hcounted Hn)
    as (df' & Hfs & Hc & Hnext & _).
  exists df'. split; [exact Hfs|]. split; [exact Hc | exact Hnext].
Defined.

(** ** The files of a run *)

Lemma awaiting_start_files E fuel a s0 res s1 :
  awaiting_start E fuel a s0 = (res, s1) ->
  let file := _get_report_file_name E (report_dir a) (process a) in
  fs s1 = match fs s0 !! file with
          | Some _ => fs s0
          | None => <[file := []]> (fs s0)
          end.
Proof.
  intros Hrun file.
  unfold awaiting_start, Process_init in Hrun. mrun in Hrun.
  set (obj := OProcess (Process.mk (process a) None None None)) in *.
  set (sa := bump (store (next_loc s0) obj s0)) in *.
  assert (heap sa !! next_loc s0 = Some obj) as Hobj
    by (subst sa; cbn; apply lookup_insert_eq).
  destruct (Report_init_files E (next_loc s0) (report_dir a) sa _ Hobj)
    as (n & sb & _ & Hinit & _ & Hfs & _).
  rewrite Hinit in Hrun. clear Hinit. mrun in Hrun.
  cbn [Process.name] in Hfs. change (fs sa) with (fs s0) in Hfs.
  fold file in Hfs.
  destruct (scan_state _ _); cbn [Process.State_eqb] in Hrun; mrun in Hrun.
  - injection Hrun as _ <-. exact Hfs.
  - unfold wait_until_started in Hrun. mrun in Hrun.
    match type of Hrun with
    | context [wait_loop E fuel ?l ?st' ?s'] =>
        destruct (wait_loop E fuel l st' s') as [resw sw] eqn:Hw
    end.
    apply wait_loop_frame in Hw as (_ & Hf & _ & _ & _). cbn in Hf.
    destruct resw; injection Hrun as _ <-; rewrite Hf; exact Hfs.
Qed.

Lemma open_session_files E a process_l report_l s1 r p n s2 :
  heap s1 !! process_l = Some (OProcess p) ->
  heap s1 !! report_l = Some (OReport r) ->
  Report.process r = process_l ->
  _get_times_opened_today (Report.report_df r) (Report.date r) = Some n ->
  open_session E a process_l report_l s1 = (Done tt, s2) ->
  fs s2 =
    <[Report.report_file_name r :=
        Report.report_df r ++
        [Line.mk (Report.date r) (time_of (now s1))
           (time_of (now s1 + duration a)) Line.unknown
           (Some (duration a)) n]]> (fs s1).
Proof.
  intros Hp Hr Hproc Hn Hopen.
  assert (process_l <> report_l) as Hne by congruence.
  unfold open_session in Hopen.
  unfold bind at 1 in Hopen.
  rewrite (prepare_to_monitor_run E _ _ _ _ Hp) in Hopen.
  cbv beta iota in Hopen.
  set (p' := Process.mk (Process.name p) (Some (now s1))
               (Some (now s1 + duration a)) (Some (duration a))) in *.
  set (sp := store process_l (OProcess p') (tick E s1)) in *.
  assert (heap sp !! report_l = Some (OReport r)) as Hr'
    by (subst sp; cbn; now rewrite lookup_insert_ne).
  assert (heap sp !! Report.process r = Some (OProcess p')) as Hp'
    by (subst sp; cbn; rewrite Hproc; apply lookup_insert_eq).
  rewrite (report_start_run E _ _ _ _ (now s1) (now s1 + duration a) n Hr' Hp'
             eq_refl eq_refl Hn) in Hopen.
  injection Hopen as <-. reflexivity.
Qed.

Lemma close_and_terminate_state E msg process_l report_l s r :
  heap s !! report_l = Some (OReport r) ->
  let t := now s + latency E (ticks s) in
  let df := update_actual_end_time (Report.report_df r)
              (_get_last_index (Report.report_df r)) (time_of t) in
  exists sc s3,
    (print E msg;; report_termination E report_l;; terminate E process_l) s
    = (terminate_result E sc, s3) /\
    trace s3 = trace s ++ [Print msg; ToCsv (Report.report_file_name r) df]
                 ++ terminate_events E sc /\
    fs s3 = <[Report.report_file_name r := df]> (fs s).
Proof.
  intros Hr t df.
  set (s1 := tick E (emit (Print msg) s)).
  assert (heap s1 !! report_l = Some (OReport r)) as Hr1 by exact Hr.
  pose proof (report_termination_run E report_l s1 r Hr1) as Hclose.
  cbv zeta in Hclose.
  match type of Hclose with _ = (_, ?s2) => set (sc := s2) in * end.
  destruct (terminate_run E process_l sc) as (s3 & Hterm & Htrace & _ & Hfs).
  exists sc, s3.
  split.
  { unfold bind at 1. unfold print at 1. cbv beta iota. fold s1.
    unfold bind at 1. rewrite Hclose. exact Hterm. }
  split.
  { rewrite Htrace. subst sc s1. cbn. now rewrite <- !app_assoc. }
  rewrite Hfs. subst sc s1. reflexivity.
Qed.

(** Under a clock that never runs backwards a hundred rounds are enough
    for the monitoring of a prepared process, whatever its window and
    whether the process stays or not. *)
Lemma monitoring_done E fuel pl s2 name st d :
  monotone E ->
  (100 <= fuel)%nat ->
  heap s2 !! pl
    = Some (OProcess (Process.mk name (Some st) (Some (st + d)) (Some d))) ->
  st <= now s2 ->
  exists sm, monitoring E fuel pl s2 = (Done tt, sm).
Proof.
  intros Hm Hfuel Hp Hle.
  pose proof (monitoring_run E fuel pl s2 _ d Hp eq_refl) as Hmon.
  cbv zeta in Hmon. cbn [Process.start_time Process.end_time] in Hmon.
  set (se := tick E (emit _ (tick E (emit _ s2)))) in Hmon.
  pose proof (Hm (ticks s2)) as L0. pose proof (Hm (S (ticks s2))) as L1.
  pose proof (Hm (S (S (ticks s2)))) as L2.
  pose proof (Hm (S (S (S (ticks s2))))) as L3.
  assert (now se == now s2 + latency E (ticks s2) + latency E (S (ticks s2)))
    as Hse by reflexivity.
  assert (now (tick E se) == now se + latency E (S (S (ticks s2))))
    as Hse1 by reflexivity.
  assert (now (tick E (tick E se))
          == now (tick E se) + latency E (S (S (S (ticks s2)))))
    as Hse2 by reflexivity.
  rewrite Hmon.
  destruct (Qlt_le_dec 0 d) as [Hd|Hd].
  - pose proof (proj2 (interval_positive _) Hd) as Hi.
    pose proof (fuel_covers_window fuel _ Hfuel Hd) as Hcover.
    apply (monitor_loop_ends E pl (interval d)
             (Process.mk name (Some st) (Some (st + d)) (Some d))
             st (st + d) eq_refl eq_refl fuel); auto; lra.
  - eexists.
    eapply monitor_loop_past_end; [exact Hp | reflexivity | reflexivity | lra].
Qed.

(** Every way a run can end once the process was seen: the line of the
    session is in the file, closed when [terminate] was reached and open
    when monitoring stopped short. *)
Lemma main_after_start E fuel a s0 s1 pl rl res s3 :
  awaiting_start E fuel a s0 = (Done (pl, rl), s1) ->
  main E fuel a s0 = (res, s3) ->
  let file := _get_report_file_name E (report_dir a) (process a) in
  let df0 := report_table E a s0 in
  exists n evs cell,
    _get_times_opened_today df0 (date_of (now s0)) = Some n /\
    let row c := Line.mk (date_of (now s0)) (time_of (now s1))
                   (time_of (now s1 + duration a)) c (Some (duration a)) n in
    fs s3 = <[file := df0 ++ [row cell]]> (fs s1) /\
    List.filter is_kill_request evs = [] /\
    match cell with
    | Line.iso v =>
        exists sc t,
          v = time_of t /\ (monotone E -> now s1 <= t) /\
          res = terminate_result E sc /\
          trace s3 = trace s1 ++ [ToCsv file (df0 ++ [row Line.unknown])]
                       ++ evs ++ [ToCsv file (df0 ++ [row cell])]
                       ++ terminate_events E sc
    | Line.unknown =>
        (monotone E -> (100 <= fuel)%nat -> False) /\
        res <> Done tt /\
        trace s3 = trace s1 ++ [ToCsv file (df0 ++ [row Line.unknown])] ++ evs
    end.
Proof.
  intros Hstart Hmain file df0.
  destruct (awaiting_start_done E fuel a s0 _ _ Hstart)
    as (n0 & Hn0 & Hres & Hheap & _).
  destruct Hres as [Hres|Hres]; [|discriminate].
  injection Hres as -> ->.
  destruct (main_split E fuel a s0 s1 _ _ Hstart)
    as (n & s2 & Hn & Hopen & Hp2 & Hr2 & _ & Htr & Hnow & Hticks & Hsplit).
  fold file df0 in Hn0, Hn, Hheap, Hr2, Htr.
  assert (n0 = n) as -> by congruence.
  set (row := fun c => Line.mk (date_of (now s0)) (time_of (now s1))
                (time_of (now s1 + duration a)) c (Some (duration a)) n).
  assert (fs s2 = <[file := df0 ++ [row Line.unknown]]> (fs s1)) as Hfs2.
  { apply (open_session_files E a (next_loc s0) (S (next_loc s0)) s1
             (Report.mk (date_of (now s0)) (report_dir a) (next_loc s0) file
                df0 n)
             (Process.mk (process a) None None None) n s2); auto.
    - rewrite Hheap, lookup_insert_ne by lia. apply lookup_insert_eq.
    - rewrite Hheap. apply lookup_insert_eq. }
  exists n. rewrite Hsplit in Hmain. clear Hsplit.
  destruct (max_times_opened a <? n)%Z.
  - destruct (close_and_terminate_state E
                (TooManyTimes n (max_times_opened a)) (next_loc s0)
                (S (next_loc s0)) s2 _ Hr2)
      as (sc & s3' & Hrun & Htr3 & Hfs3).
    unfold over_limit in Hmain.
    cbn [Report.times_opened Report.report_df Report.report_file_name] in *.
    rewrite Hrun in Hmain. injection Hmain as <- <-.
    rewrite update_actual_end_time_snoc in Hfs3, Htr3.
    exists [Print (TooManyTimes n (max_times_opened a))],
      (Line.iso (time_of (now s2 + latency E (ticks s2)))).
    split; [exact Hn|]. cbv zeta.
    split; [rewrite Hfs3, Hfs2; apply insert_insert_eq|].
    split; [reflexivity|].
    exists sc, (now s2 + latency E (ticks s2)).
    split; [reflexivity|]. split.
    { intros Hm. pose proof (Hm (ticks s1)). pose proof (Hm (S (ticks s1))).
      pose proof (Hm (ticks s2)). lra. }
    split; [reflexivity|].
    rewrite Htr3, Htr. now rewrite <- !app_assoc.
  - destruct (within_limit_run E fuel (next_loc s0) (S (next_loc s0)) s2
                _ _ _ _ _ Hp2 Hr2 eq_refl eq_refl eq_refl)
      as (resm & sm & evs & Hmon & Hh & Hf & Htrm & Hevs & Hsafe & Hseq).
    rewrite Hseq in Hmain.
    cbn [Process.start_time Process.end_time] in Htrm.
    pose proof Hr2 as Hrsm. rewrite <- Hh in Hrsm.
    pose proof (monitor_events_no_kill _ _ Hevs) as Hnokill.
    assert (monotone E -> now s1 <= now s2) as Hs12.
    { intros Hm. pose proof (Hm (ticks s1)). pose proof (Hm (S (ticks s1))).
      lra. }
    assert (forall r', r' <> Done tt -> (r', sm) = (res, s3) ->
              resm = r' ->
              exists evs' cell,
                _get_times_opened_today df0 (date_of (now s0)) = Some n /\
                fs s3 = <[file := df0 ++ [row cell]]> (fs s1) /\
                List.filter is_kill_request evs' = [] /\
                match cell with
                | Line.iso v =>
                    exists sc t,
                      v = time_of t /\ (monotone E -> now s1 <= t) /\
                      res = terminate_result E sc /\
                      trace s3 =
                        trace s1 ++ [ToCsv file (df0 ++ [row Line.unknown])]
                          ++ evs' ++ [ToCsv file (df0 ++ [row cell])]
                          ++ terminate_events E sc
                | Line.unknown =>
                    (monotone E -> (100 <= fuel)%nat -> False) /\
                    res <> Done tt /\
                    trace s3 =
                      trace s1 ++ [ToCsv file (df0 ++ [row Line.unknown])]
                        ++ evs'
                end) as Hstop.
    { intros r' Hr' Heq Hresm. injection Heq as <- <-.
      exists ([Print (StartingAt (Some (now s1)));
               Print (WillBeTerminated (duration a / 60)
                        (Some (now s1 + duration a)))] ++ evs),
        Line.unknown.
      split; [exact Hn|]. split; [rewrite Hf; exact Hfs2|].
      split; [rewrite List.filter_app, Hnokill; reflexivity|].
      split.
      { intros Hm Hfuel.
        destruct (monitoring_done E fuel (next_loc s0) s2 (process a)
                    (now s1) (duration a) Hm Hfuel Hp2 (Hs12 Hm))
          as [sm' Hdone].
        rewrite Hmon in Hdone. congruence. }
      split; [exact Hr'|].
      rewrite Htrm, Htr. now rewrite <- !app_assoc. }
    destruct resm as [[]|e|].
    + destruct (close_and_terminate_state E DurationPassed (next_loc s0)
                  (S (next_loc s0)) sm _ Hrsm)
        as (sc & s3' & Hrun & Htr3 & Hfs3).
      unfold terminating in Hmain.
      cbn [Report.report_df Report.report_file_name] in *.
      rewrite Hrun in Hmain. injection Hmain as <- <-.
      rewrite update_actual_end_time_snoc in Hfs3, Htr3.
      exists ([Print (StartingAt (Some (now s1)));
               Print (WillBeTerminated (duration a / 60)
                        (Some (now s1 + duration a)))] ++ evs
              ++ [Print DurationPassed]),
        (Line.iso (time_of (now sm + latency E (ticks sm)))).
      split; [exact Hn|]. cbv zeta.
      split; [rewrite Hfs3, Hf, Hfs2; apply insert_insert_eq|].
      split.
      { rewrite !List.filter_app, Hnokill. reflexivity. }
      exists sc, (now sm + latency E (ticks sm)).
      split; [reflexivity|]. split.
      { intros Hm. destruct (Hsafe Hm (Hs12 Hm)) as [_ Hsm].
        pose proof (Hs12 Hm). pose proof (Hm (ticks sm)). lra. }
      split; [reflexivity|].
      rewrite Htr3, Htrm, Htr. rewrite <- !app_assoc. reflexivity.
    + apply (Hstop (Raise e)); [discriminate | exact Hmain | reflexivity].
    + apply (Hstop OutOfFuel); [discriminate | exact Hmain | reflexivity].
Qed.

(** X10. A run touches its own report file only, and only by appending:
    however it ends (out of fuel while waiting or monitoring, by an
    exception, or through [terminate]), the file of the monitored process
    holds the table found at startup, empty when there was no file,
    followed by at most one line, and every other file is what it was. *)
Theorem X10_a_run_appends_to_its_own_file_only E fuel a s0 res s3 :
  main E fuel a s0 = (res, s3) ->
  let file := _get_report_file_name E (report_dir a) (process a) in
  (exists rows,
     fs s3 !! file = Some (report_table E a s0 ++ rows) /\
     (List.length rows <= 1)%nat) /\
  (forall f, f <> file -> fs s3 !! f = fs s0 !! f).
Proof.
  intros Hmain file.
  destruct (awaiting_start E fuel a s0) as [r1 s1] eqn:Hstart.
  pose proof (awaiting_start_files E fuel a s0 _ _ Hstart) as Hfiles.
  cbv zeta in Hfiles. fold file in Hfiles.
  destruct (awaiting_start_done E fuel a s0 _ _ Hstart)
    as (n0 & _ & Hres & _ & Hfs1 & _).
  assert (forall f, f <> file -> fs s1 !! f = fs s0 !! f) as Hframe.
  { intros f Hf. rewrite Hfiles.
    destruct (fs s0 !! file); [reflexivity|]. now rewrite lookup_insert_ne. }
  destruct Hres as [-> | ->].
  - destruct (main_after_start E fuel a s0 s1 _ _ res s3 Hstart Hmain)
      as (n & evs & cell & _ & Hfs3 & _).
    cbv zeta in Hfs3. fold file in Hfs3. split.
    + eexists [_]. rewrite Hfs3, lookup_insert_eq.
      split; [reflexivity | cbn; lia].
    + intros f Hf. rewrite Hfs3, lookup_insert_ne by congruence.
      now apply Hframe.
  - rewrite main_phases in Hmain. unfold main_by_phases in Hmain.
    unfold bind at 1 in Hmain. rewrite Hstart in Hmain.
    injection Hmain as _ <-.
    split; [|exact Hframe].
    exists []. rewrite app_nil_r. split; [exact Hfs1 | cbn; lia].
Qed.

Lemma X10_witness :
  let s3 := snd (main firefox_env 100 firefox_args (boot 1000 two_reports)) in
  fs s3 !! chrome_file = Some [Line.mk 0 20 80 (Line.iso 80) (Some 60) 1] /\
  exists rows,
    fs s3 !! firefox_file
    = Some ([Line.mk 0 10 610 (Line.iso 610) (Some 600) 1] ++ rows) /\
    (List.length rows <= 1)%nat.
Proof.
  intros s3.
  assert (_get_report_file_name firefox_env (report_dir firefox_args)
            (process firefox_args) = firefox_file) as Hfile
    by (vm_compute; reflexivity).
  assert (report_table firefox_env firefox_args (boot 1000 two_reports)
          = [Line.mk 0 10 610 (Line.iso 610) (Some 600) 1]) as Htable
    by (vm_compute; reflexivity).
  assert (fs (boot 1000 two_reports) !! chrome_file
          = Some [Line.mk 0 20 80 (Line.iso 80) (Some 60) 1]) as Hchrome
    by (vm_compute; reflexivity).
  assert (chrome_file <> firefox_file) as Hne by discriminate.
  destruct (X10_a_run_appends_to_its_own_file_only firefox_env 100
              firefox_args (boot 1000 two_reports)
              (fst (main firefox_env 100 firefox_args (boot 1000 two_reports)))
              s3 (surjective_pairing _))
    as [(rows & Hrows & Hlen) Hframe].
  rewrite Hfile in Hrows, Hframe. rewrite Htable in Hrows.
  split.
  - rewrite (Hframe chrome_file Hne). exact Hchrome.
  - exists rows. split; [exact Hrows | exact Hlen].
Defined.

(** ** A run from the first sight of the process to the kill *)



(** ** A run while the process is absent *)




(** ** The progress shown *)

Lemma round_half_even_mono q1 q2 :
  q1 <= q2 -> (round_half_even q1 <= round_half_even q2)%Z.
Proof.
  intros Hle.
  pose proof (Qfloor_resp_le _ _ Hle) as Hf.
  pose proof (Qfloor_le q1) as Hlo1. pose proof (Qfloor_le q2) as Hlo2.
  destruct (Z.eq_dec (Qfloor q1) (Qfloor q2)) as [Heq|Hne].
  - unfold round_half_even. rewrite <- Heq.
    destruct (Qle_bool (q1 - inject_Z (Qfloor q1)) (1 # 2)) eqn:H1;
      destruct (Qle_bool (q2 - inject_Z (Qfloor q1)) (1 # 2)) eqn:H2;
      destruct (Qle_bool (1 # 2) (q1 - inject_Z (Qfloor q1))) eqn:H3;
      destruct (Qle_bool (1 # 2) (q2 - inject_Z (Qfloor q1))) eqn:H4;
      destruct (Z.even (Qfloor q1)); try lia;
      repeat match goal with
      | H : Qle_bool _ _ = true |- _ => apply Qle_bool_iff in H
      | H : Qle_bool ?a ?b = false |- _ =>
          assert (b < a)
            by (apply Qnot_le_lt; rewrite <- Qle_bool_iff, H; discriminate);
          clear H
      end; lra.
  - assert (Qfloor q1 + 1 <= Qfloor q2)%Z by lia.
    assert (Qfloor q2 <= round_half_even q2)%Z
      by (destruct (round_half_even_cases q2) as [-> | ->]; lia).
    destruct (round_half_even_cases q1) as [-> | ->]; lia.
Qed.

Lemma percentage_of_mono st et c1 c2 :
  st < et -> c1 <= c2 -> percentage_of st et c1 <= percentage_of st et c2.
Proof.
  intros Hlt Hle. unfold percentage_of. rewrite !round2_scale.
  assert (0 < / (et - st)) as Hinv by (apply Qinv_lt_0_compat; lra).
  assert (100 * ((c1 - st) / (et - st)) * 100
          <= 100 * ((c2 - st) / (et - st)) * 100) as Hshare.
  { unfold Qdiv. nra. }
  apply round_half_even_mono in Hshare. rewrite Zle_Qle in Hshare. lra.
Qed.

Lemma percentage_of_range st et c :
  st <= c -> c < et ->
  0 <= percentage_of st et c /\ percentage_of st et c <= 100.
Proof.
  intros Hc Hlt.
  assert (0 < et - st) as Hpos by lra.
  assert (0 <= (c - st) / (et - st)) as Hq0
    by (apply Qle_shift_div_l; [exact Hpos | lra]).
  assert ((c - st) / (et - st) < 1) as Hq1
    by (apply Qlt_shift_div_r; [exact Hpos | lra]).
  unfold percentage_of.
  set (share := 100 * ((c - st) / (et - st))) in *.
  assert (0 <= share * 100) as Hs0 by (subst share; lra).
  assert (share * 100 < inject_Z 10000) as Hs1
    by (change (inject_Z 10000) with 10000; subst share; lra).
  destruct (round_half_even_range _ 10000 Hs0 Hs1) as [Hr0 Hr1].
  rewrite Zle_Qle in Hr0, Hr1.
  change (inject_Z 0) with 0 in Hr0. change (inject_Z 10000) with 10000 in Hr1.
  rewrite round2_scale. split; lra.
Qed.

Lemma monitor_loop_progress E self i p st et fuel : forall state c s res s',
  Process.start_time p = Some st ->
  Process.end_time p = Some et ->
  monotone E ->
  heap s !! self = Some (OProcess p) ->
  st <= c -> c <= now s ->
  monitor_loop E fuel self i state c s = (res, s') ->
  exists evs,
    trace s' = trace s ++ evs /\
    nondecreasing (progress_of evs) /\
    Forall (fun q => percentage_of st et c <= q /\ 0 <= q /\ q <= 100)
      (progress_of evs).
Proof.
  induction fuel as [|fuel IH]; intros state c s res s' Hst Het Hm Hself Hc Hnow;
    rewrite (monitor_loop_eq _ _ _ _ _ _ _ _ _ _ Hself Hst Het).
  - destruct (_ && _); intros [= <- <-]; exists [];
      (split; [now rewrite app_nil_r|]); cbn; auto.
  - destruct (Process.State_eqb state Process.On && Qlt_bool c et) eqn:Hcond.
    2:{ intros [= <- <-]; exists [].
        split; [now rewrite app_nil_r|]. cbn; auto. }
    apply andb_true_iff in Hcond as [_ Hlt]. apply Qlt_bool_iff in Hlt.
    destruct (percentage_of_range st et c Hc Hlt) as [Hp0 Hp100].
    destruct (Qeq_bool (et - st) 0).
    { intros [= <- <-]; exists [].
      split; [now rewrite app_nil_r|]. cbn; auto. }
    destruct (Qlt_bool i 0) eqn:Hi.
    { intros [= <- <-]. eexists [_]. split; [reflexivity|]. cbn.
      repeat split; auto. constructor; [|constructor].
      repeat split; auto. apply Qle_refl. }
    apply Qlt_bool_false in Hi.
    pose proof (Hm (ticks s)) as L0. pose proof (Hm (S (ticks s))) as L1.
    pose proof (Hm (S (S (ticks s)))) as L2.
    pose proof (Hm (S (S (S (ticks s))))) as L3.
    set (pct := percentage_of st et c) in *.
    assert (monitor_clock E i pct s
            == now s + latency E (ticks s) + i + latency E (S (ticks s)))
      as Hclock by reflexivity.
    assert (now (monitor_round E i pct s)
            == monitor_clock E i pct s
               + latency E (S (S (ticks s))) + latency E (S (S (S (ticks s)))))
      as Hround by reflexivity.
    intros Hrun.
    apply IH in Hrun as (evs & Htr & Hsorted & Hall); auto; try lra.
    assert (pct <= percentage_of st et (monitor_clock E i pct s)) as Hstep
      by (apply percentage_of_mono; lra).
    assert (Forall (fun q => pct <= q /\ 0 <= q /\ q <= 100) (progress_of evs))
      as Hall'.
    { eapply Forall_impl; [exact Hall|]. cbv beta.
      intros q (H1 & H2 & H3). repeat split; auto.
      eapply Qle_trans; [exact Hstep | exact H1]. }
    exists (Print (Monitoring pct) :: Sleep i :: evs).
    split; [rewrite Htr; cbn; now rewrite <- !app_assoc|].
    cbn [progress_of nondecreasing]. split.
    + split; [|exact Hsorted].
      eapply Forall_impl; [exact Hall'|]. cbv beta. now intros q (H1 & _).
    + constructor; [|exact Hall'].
      repeat split; auto. apply Qle_refl.
Qed.

(** X14. The progress shown by [monitor] never goes backwards: under a
    clock that never runs backwards, for a process prepared before the
    clock of the call, the percentages of the progress lines that
    [monitor] prints are in nondecreasing order and each lies between 0
    and 100, however the call ends. *)
Theorem X14_progress_never_goes_backwards E fuel self s p st et d res s' :
  monotone E ->
  heap s !! self = Some (OProcess p) ->
  Process.start_time p = Some st ->
  Process.end_time p = Some et ->
  Process.duration p = Some d ->
  st <= now s ->
  monitor E fuel self s = (res, s') ->
  exists evs,
    trace s' = trace s ++ evs /\
    nondecreasing (progress_of evs) /\
    Forall (fun q => 0 <= q /\ q <= 100) (progress_of evs).
Proof.
  intros Hm Hself Hst Het Hd Hle Hrun.
  rewrite (monitor_run E fuel self s p d Hself Hd) in Hrun.
  pose proof (Hm (ticks s)) as L0. pose proof (Hm (S (ticks s))) as L1.
  assert (now (tick E s) == now s + latency E (ticks s)) as H1 by reflexivity.
  assert (now (tick E (tick E s)) == now (tick E s) + latency E (S (ticks s)))
    as H2 by reflexivity.
  assert (heap (tick E (tick E s)) !! self = Some (OProcess p)) as Hself'
    by exact Hself.
  assert (st <= now (tick E s)) as Hc by lra.
  assert (now (tick E s) <= now (tick E (tick E s))) as Hnow by lra.
  destruct (monitor_loop_progress E self (interval d) p st et fuel _ _ _ _ _
              Hst Het Hm Hself' Hc Hnow Hrun)
    as (evs & Htr & Hsorted & Hall).
  exists evs. split; [exact Htr|]. split; [exact Hsorted|].
  eapply Forall_impl; [exact Hall|]. cbv beta. now intros q (_ & H).
Qed.

Lemma X14_witness :
  monotone firefox_env /\
  exists evs,
    trace (snd (monitor firefox_env 100 0%nat session_opened)) = evs /\
    nondecreasing (progress_of evs) /\
    List.length (progress_of evs) = 100%nat.
Proof.
  assert (monotone firefox_env) as Hm by (intros k; apply Qle_refl).
  split; [exact Hm|].
  assert (heap session_opened !! 0%nat
          = Some (OProcess
                    (Process.mk "firefox" (Some 100) (Some 700) (Some 600))))
    as Hself by (vm_compute; reflexivity).
  destruct (X14_progress_never_goes_backwards firefox_env 100 0%nat
              session_opened _ 100 700 600
              (fst (monitor firefox_env 100 0%nat session_opened))
              (snd (monitor firefox_env 100 0%nat session_opened))
              Hm Hself eq_refl eq_refl eq_refl (Qle_refl 100)
              (surjective_pairing _))
    as (evs & Htr & Hsorted & _).
  exists evs. change (trace session_opened) with (@nil Event) in Htr.
  split; [exact Htr|]. split; [exact Hsorted|].
  change (@nil Event ++ evs) with evs in Htr. rewrite <- Htr.
  vm_compute. reflexivity.
Defined.
